(** * sagittariidae: the sample resolver ([app/sampleresolver.py])

    A shallow embedding of the search engine that resolves free-text tokens
    to the Samples of one project, and the properties its description
    states about it.

    The embedding follows the Python source class by class:
    - [_HashableSample_] : the wrapper hashing a Sample on
      [(id, obfuscated_id, _project_id)];
    - Python's [set] restricted to the operations the module uses
      ([add], [|], [&], [len], iteration);
    - the three [_Resolver_] subclasses and the queries they send to the
      database session;
    - [_Resolver_.run], [SampleTokenResolver.resolve] and
      [SampleResolver.resolve].

    Calls to the collaborators (project lookup, database session, logger)
    are recorded in a trace, carried by a small writer-and-error monad. *)

From Stdlib Require Import List String Ascii ZArith Bool Lia.
Import ListNotations.
Open Scope string_scope.
Open Scope list_scope.
Open Scope Z_scope.

(* ================================================================== *)
(** * Exceptions and results *)

(** The instances of [Exception] the module can meet.  [DatabaseError]
    stands for whatever the database session raises while it executes a
    query; all of them are subclasses of [Exception]. *)
Inductive PyExc : Type :=
| AttributeError (attr : string)
| NotImplementedError
| TypeError (msg : string)
| ProjectNotFound (project_id : string)
| DatabaseError (msg : string).

Inductive PyResult (A : Type) : Type :=
| Return (a : A)
| Raise (e : PyExc).

Arguments Return {A} a.
Arguments Raise {A} e.

(* ================================================================== *)
(** * The models the resolver reads ([app/models.py])

    The module only reads these attributes of the models. *)

Record Project : Type := mkProject {
  project_id_ : Z;                    (* Project.id *)
  project_obfuscated_id : string      (* Project.obfuscated_id *)
}.

Record Sample : Type := mkSample {
  id : Z;
  obfuscated_id : string;
  _project_id : Z;
  name : string
}.

Record Method : Type := mkMethod {
  method_id : Z;
  method_name : string
}.

Record SampleStage : Type := mkSampleStage {
  stage_id : Z;
  stage_sample_id : Z;                (* foreign key of SampleStage.sample *)
  stage_method_id : Z;                (* foreign key of SampleStage.method *)
  annotation : option string          (* a nullable text column *)
}.

(* ================================================================== *)
(** * [_HashableSample_] *)

Module HashableSample.

(** The tuple [__key__] returns. *)
Definition Key : Type := (Z * string * Z)%type.

(** [==] on two such tuples: component by component. *)
Definition key_eqb (k1 k2 : Key) : bool :=
  let '(i1, o1, p1) := k1 in
  let '(i2, o2, p2) := k2 in
  (i1 =? i2) && (o1 =? o2)%string && (p1 =? p2).

Record _HashableSample_ : Type := __init__ { sample : Sample }.

Definition __key__ (self : _HashableSample_) : Key :=
  (id (sample self), obfuscated_id (sample self), _project_id (sample self)).

(** The objects [__eq__] may be handed.  Only a [_HashableSample_] has a
    [__key__] attribute. *)
Inductive PyObject : Type :=
| PyNone
| PyInt (z : Z)
| PyStr (s : string)
| PyTuple (k : Key)
| PySample (s : Sample)
| PyHashableSample (h : _HashableSample_).

(** Attribute lookup of [__key__] followed by the call: [o.__key__()]. *)
Definition call___key__ (o : PyObject) : PyResult Key :=
  match o with
  | PyHashableSample h => Return (__key__ h)
  | _ => Raise (AttributeError "__key__")
  end.

Definition has___key__ (o : PyObject) : bool :=
  match o with
  | PyHashableSample _ => true
  | _ => false
  end.

Definition __eq__ (self : _HashableSample_) (o : PyObject) : PyResult bool :=
  match call___key__ o with
  | Return k => Return (key_eqb (__key__ self) k)
  | Raise e => Raise e
  end.

(** [hash] is the builtin hash on the key tuples. *)
Definition __hash__ (hash : Key -> Z) (self : _HashableSample_) : Z :=
  hash (__key__ self).

(** [a == b] for two wrappers, as the set operations evaluate it. *)
Definition eqb (a b : _HashableSample_) : bool :=
  key_eqb (__key__ a) (__key__ b).

End HashableSample.

Import HashableSample.

(* ================================================================== *)
(** * Python's [set], holding [_HashableSample_]s

    A set is represented by the list of its elements, no two of them equal
    under [__eq__].  The order of the list stands for the order in which the
    set is iterated; Python fixes no such order, and no statement below
    depends on it. *)

Module PySet.

Definition t : Type := list _HashableSample_.

(** [set()] *)
Definition empty : t := [].

Definition len (s : t) : Z := Z.of_nat (List.length s).

(** [x in s]: some element of the set equals [x]. *)
Definition contains (s : t) (x : _HashableSample_) : bool :=
  existsb (fun y => eqb y x) s.

(** [s.add(x)]: an element equal to one already present is not added, and
    the one already present stays. *)
Definition add (s : t) (x : _HashableSample_) : t :=
  if contains s x then s else s ++ [x].

(** [a | b]: a copy of [a] to which the elements of [b] are added. *)
Definition union (a b : t) : t := fold_left add b a.

(** [a & b]: the smaller operand is iterated ([b] when the sizes are equal)
    and its elements found in the other one are kept. *)
Definition intersection (a b : t) : t :=
  if len a <? len b
  then filter (contains b) a
  else filter (contains a) b.

End PySet.

(** [functools.reduce], with and without an initial value. *)
Definition reduce_init {A B : Type} (f : A -> B -> A) (l : list B) (init : A) : A :=
  fold_left f l init.

Definition reduce {A : Type} (f : A -> A -> A) (l : list A) : PyResult A :=
  match l with
  | [] => Raise (TypeError "reduce() of empty sequence with no initial value")
  | x :: xs => Return (fold_left f xs x)
  end.

(* ================================================================== *)
(** * The database session

    The resolvers build their queries with SQLAlchemy and run them in
    [models.db.session].  The session is represented by the rows of the
    tables the queries read, and by the error, if any, it raises instead of
    answering a resolver's query. *)

Module SQL.

(** [lower()]: ASCII letters only, as SQLite folds case. *)
Definition lower_ascii (c : ascii) : ascii :=
  let n := nat_of_ascii c in
  if (65 <=? n)%nat && (n <=? 90)%nat then ascii_of_nat (n + 32) else c.

Fixpoint lower (s : string) : string :=
  match s with
  | EmptyString => EmptyString
  | String c s' => String (lower_ascii c) (lower s')
  end.

(** [value LIKE pattern]: in the pattern [%] stands for any run of
    characters, [_] for any one character, every other character for
    itself.  No escape character is declared by the queries. *)
Fixpoint like (pattern : string) : string -> bool :=
  match pattern with
  | EmptyString =>
      fun value => match value with EmptyString => true | String _ _ => false end
  | String c pattern' =>
      if Ascii.eqb c "%" then
        fix any_run (value : string) : bool :=
          like pattern' value
          || match value with
             | EmptyString => false
             | String _ value' => any_run value'
             end
      else if Ascii.eqb c "_" then
        fun value =>
          match value with
          | EmptyString => false
          | String _ value' => like pattern' value'
          end
      else
        fun value =>
          match value with
          | EmptyString => false
          | String d value' => Ascii.eqb c d && like pattern' value'
          end
  end.

(** [column.ilike(pattern)], rendered as [lower(column) LIKE lower(pattern)]. *)
Definition ilike (column pattern : string) : bool :=
  like (lower pattern) (lower column).

(** The same on a nullable column: NULL matches nothing. *)
Definition ilike_nullable (column : option string) (pattern : string) : bool :=
  match column with
  | Some v => ilike v pattern
  | None => false
  end.

End SQL.

(** The subclasses of [_Resolver_]. *)
Inductive ResolverType : Type :=
| SampleNameResolver
| StageMethodResolver
| StageAnnotationResolver.

Definition _RESOLVER_TYPES_ : list ResolverType :=
  [SampleNameResolver; StageMethodResolver; StageAnnotationResolver].

Record Session : Type := mkSession {
  projects : list Project;
  samples : list Sample;
  sample_stages : list SampleStage;
  methods : list Method;
  (* the error raised instead of the answer to the query of resolver [cls]
     for [token] and [project_id] *)
  execute_error : ResolverType -> string -> Z -> option PyExc
}.

(* ================================================================== *)
(** * The trace of calls to the collaborators, and the monad carrying it *)

Inductive Event : Type :=
| GetProject (obfuscated_id : string)
| Execute (cls : ResolverType) (token : string) (project_id : Z)
| LogError (cls : ResolverType) (e : PyExc).

Definition Py (A : Type) : Type := (PyResult A * list Event)%type.

Definition ret {A : Type} (a : A) : Py A := (Return a, []).

Definition raise {A : Type} (e : PyExc) : Py A := (Raise e, []).

Definition emit (ev : Event) : Py unit := (Return tt, [ev]).

Definition bind {A B : Type} (m : Py A) (k : A -> Py B) : Py B :=
  match m with
  | (Return a, tr) => let (r, tr') := k a in (r, tr ++ tr')
  | (Raise e, tr) => (Raise e, tr)
  end.

(** [try: body  except Exception as e: handler(e)] *)
Definition try_except {A : Type} (body : Py A) (handler : PyExc -> Py A) : Py A :=
  match body with
  | (Return a, tr) => (Return a, tr)
  | (Raise e, tr) => let (r, tr') := handler e in (r, tr ++ tr')
  end.

Definition lift {A : Type} (r : PyResult A) : Py A := (r, []).

Notation "x <- m ;; k" := (bind m (fun x => k))
  (at level 61, m at next level, right associativity).
Notation "m ;;; k" := (bind m (fun _ => k))
  (at level 61, right associativity).

(** A list comprehension whose body calls into the monad. *)
Fixpoint for_each {A B : Type} (f : A -> Py B) (l : list A) : Py (list B) :=
  match l with
  | [] => ret []
  | x :: xs =>
      y <- f x ;;
      ys <- for_each f xs ;;
      ret (y :: ys)
  end.

Definition value {A : Type} (m : Py A) : PyResult A := fst m.
Definition trace {A : Type} (m : Py A) : list Event := snd m.

(* ================================================================== *)
(** * The collaborators *)

(** Modelled from the spec: [models.get_project] is defined in
    [app/models.py], which is not among the sources.  The lookup of the
    project by its obfuscated id fails with [ProjectNotFound] if the project
    is absent. *)
Definition get_project (db : Session) (obfuscated_id : string) : Py Project :=
  emit (GetProject obfuscated_id) ;;;
  match find (fun p => (project_obfuscated_id p =? obfuscated_id)%string) (projects db) with
  | Some p => ret p
  | None => raise (ProjectNotFound obfuscated_id)
  end.

(** [q.all()]: the session executes the query of resolver [cls] and answers
    with its rows, or raises. *)
Definition all {A : Type} (db : Session) (cls : ResolverType)
    (token : string) (project_id : Z) (rows : list A) : Py (list A) :=
  emit (Execute cls token project_id) ;;;
  match execute_error db cls token project_id with
  | Some e => raise e
  | None => ret rows
  end.

(** [sagittariidae.app.logger.error('Unhandled exception in Resolver %s',
    self, exc_info=e)] *)
Definition logger_error (cls : ResolverType) (e : PyExc) : Py unit :=
  emit (LogError cls e).

(** [.join(models.Sample.sample_stages)]: the stages with their sample. *)
Definition join_sample_stages (db : Session) : list (SampleStage * Sample) :=
  flat_map
    (fun st => map (fun sa => (st, sa))
                 (filter (fun sa => id sa =? stage_sample_id st) (samples db)))
    (sample_stages db).

(** [.join(sample_stage_1, models.Method.sample_stages)]: the aliased stages
    with their method. *)
Definition join_method_stages (db : Session) : list (SampleStage * Method) :=
  flat_map
    (fun st1 => map (fun m => (st1, m))
                  (filter (fun m => method_id m =? stage_method_id st1) (methods db)))
    (sample_stages db).

(* ================================================================== *)
(** * The resolvers *)

Module _StageAnnotationResolver_.

Definition resolve (db : Session) (token : string) (project_id : Z) : Py (list Sample) :=
  q <- all db StageAnnotationResolver token project_id
         (filter (fun row => SQL.ilike_nullable (annotation (fst row)) token)
            (filter (fun row => _project_id (snd row) =? project_id)
               (join_sample_stages db))) ;;
  ret (map (fun row => snd row) q).

End _StageAnnotationResolver_.

Module _SampleNameResolver_.

Definition resolve (db : Session) (token : string) (project_id : Z) : Py (list Sample) :=
  all db SampleNameResolver token project_id
    (filter (fun s => SQL.ilike (name s) token)
       (filter (fun s => _project_id s =? project_id) (samples db))).

End _SampleNameResolver_.

Module _StageMethodResolver_.

Definition resolve (db : Session) (token : string) (project_id : Z) : Py (list Sample) :=
  q <- all db StageMethodResolver token project_id
         (filter (fun row => SQL.ilike (method_name (snd (snd row))) token)
            (filter (fun row => _project_id (snd (fst row)) =? project_id)
               (filter (fun row => stage_id (fst (fst row)) =? stage_id (fst (snd row)))
                  (list_prod (join_sample_stages db) (join_method_stages db))))) ;;
  ret (map (fun row => snd (fst row)) q).

End _StageMethodResolver_.

Module _Resolver_.

(** A resolver object: its class and its attributes. *)
Record t : Type := new {
  cls : ResolverType;
  project : Project;
  token : string;
  results : PySet.t
}.

Definition set_results (self : t) (s : PySet.t) : t :=
  new (cls self) (project self) (token self) s.

(** [self.resolve(token, project_id)], dispatched on the class of [self].
    The method of the base class, which raises [NotImplementedError], is
    overridden by each of the three classes. *)
Definition resolve (self : t) (db : Session) (token : string) (project_id : Z)
  : Py (list Sample) :=
  match cls self with
  | SampleNameResolver => _SampleNameResolver_.resolve db token project_id
  | StageMethodResolver => _StageMethodResolver_.resolve db token project_id
  | StageAnnotationResolver => _StageAnnotationResolver_.resolve db token project_id
  end.

Definition run (db : Session) (self : t) : Py t :=
  let self := set_results self PySet.empty in
  try_except
    (rows <- resolve self db (token self) (project_id_ (project self)) ;;
     ret (set_results self
            (fold_left (fun res sample => PySet.add res (__init__ sample))
               rows (results self))))
    (fun e => logger_error (cls self) e ;;; ret self).

End _Resolver_.

Module SampleTokenResolver.

Record t : Type := __init__ { project : Project }.

(** ['%%%s%%' % token] *)
Definition wrap (token : string) : string := ("%" ++ token ++ "%")%string.

Definition make_resolver (cls : ResolverType) (token : string) (project : Project)
  : _Resolver_.t :=
  _Resolver_.new cls project (wrap token) PySet.empty.

Definition resolve (db : Session) (self : t) (token : string) : Py PySet.t :=
  let resolvers :=
    map (fun t => make_resolver t token (project self)) _RESOLVER_TYPES_ in
  resolvers <- for_each (_Resolver_.run db) resolvers ;;
  let candidate_results := map _Resolver_.results resolvers in
  ret (reduce_init PySet.union candidate_results PySet.empty).

End SampleTokenResolver.

Module SampleResolver.

Definition resolve (db : Session) (tokens : list string) (project_id : string)
  : Py (list Sample) :=
  project <- get_project db project_id ;;
  sets <- for_each
            (fun t => SampleTokenResolver.resolve db
                        (SampleTokenResolver.__init__ project) t)
            tokens ;;
  let candidate_results := filter (fun s => 0 <? PySet.len s) sets in
  if 0 <? Z.of_nat (List.length candidate_results)
  then
    s <- lift (reduce PySet.intersection candidate_results) ;;
    ret (map sample s)
  else ret [].

End SampleResolver.

(* ================================================================== *)
(** * Vocabulary of the properties *)

(** The identity key of an entity. *)
Definition identity_of (E : Sample) : Key := __key__ (HashableSample.__init__ E).

(** The identity keys of the elements of a set. *)
Definition keys (S : PySet.t) : list Key := map __key__ S.

Definition cls_eqb (a b : ResolverType) : bool :=
  match a, b with
  | SampleNameResolver, SampleNameResolver => true
  | StageMethodResolver, StageMethodResolver => true
  | StageAnnotationResolver, StageAnnotationResolver => true
  | _, _ => false
  end.

(** What the matcher of class [cls] answers for a raw token in the scope of
    a project: the rows its [resolve] returns for the resolver object
    [make_resolver] builds, or the exception it raises. *)
Definition match_ (db : Session) (cls : ResolverType) (token : string)
    (project : Project) : PyResult (list Sample) :=
  let resolver := SampleTokenResolver.make_resolver cls token project in
  value (_Resolver_.resolve resolver db (_Resolver_.token resolver)
           (project_id_ (_Resolver_.project resolver))).

(** The set [run] builds from the rows of a matcher. *)
Definition rows_set (rows : list Sample) : PySet.t :=
  fold_left (fun res sample => PySet.add res (HashableSample.__init__ sample))
    rows PySet.empty.

(** What a matcher contributes to the union of a token: the set of its
    rows, and nothing if it raises. *)
Definition contribution (db : Session) (project : Project) (token : string)
    (cls : ResolverType) : PySet.t :=
  match match_ db cls token project with
  | Return rows => rows_set rows
  | Raise _ => PySet.empty
  end.

(** The set of one token: the union of the contributions. *)
Definition token_set (db : Session) (project : Project) (token : string) : PySet.t :=
  reduce_init PySet.union
    (map (contribution db project token) _RESOLVER_TYPES_) PySet.empty.

(** The session [db] in which the query of resolver [cls0] for [token0] and
    [project_id0] raises [e]. *)
Definition fail_at (db : Session) (cls0 : ResolverType) (token0 : string)
    (project_id0 : Z) (e : PyExc) : Session :=
  mkSession (projects db) (samples db) (sample_stages db) (methods db)
    (fun cls token project_id =>
       if cls_eqb cls cls0 && (token =? token0)%string && (project_id =? project_id0)
       then Some e
       else execute_error db cls token project_id).

(** Substring containment: [needle] is a prefix of some suffix of
    [haystack]. *)
Fixpoint contains_str (needle haystack : string) : bool :=
  String.prefix needle haystack
  || match haystack with
     | EmptyString => false
     | String _ haystack' => contains_str needle haystack'
     end.

(** Case-insensitive substring containment of the literal token. *)
Definition icontains (token v : string) : bool :=
  contains_str (SQL.lower token) (SQL.lower v).

Definition icontains_nullable (token : string) (v : option string) : bool :=
  match v with
  | Some s => icontains token s
  | None => false
  end.

(** The token holds none of the wildcards of LIKE. *)
Fixpoint wildcard_free (token : string) : bool :=
  match token with
  | EmptyString => true
  | String c token' =>
      negb (Ascii.eqb c "%") && negb (Ascii.eqb c "_") && wildcard_free token'
  end.

(** The values of the attribute the matcher of class [cls] searches, for
    one sample: its name; the annotations of its stages; the names of the
    methods of its stages. *)
Definition searched_values (db : Session) (cls : ResolverType) (s : Sample)
  : list (option string) :=
  let stages_of_sample :=
    filter (fun st => id s =? stage_sample_id st) (sample_stages db) in
  match cls with
  | SampleNameResolver => [Some (name s)]
  | StageAnnotationResolver => map annotation stages_of_sample
  | StageMethodResolver =>
      flat_map
        (fun st =>
           flat_map
             (fun st1 =>
                map (fun m => Some (method_name m))
                  (filter (fun m => method_id m =? stage_method_id st1) (methods db)))
             (filter (fun st1 => stage_id st =? stage_id st1) (sample_stages db)))
        stages_of_sample
  end.

(** The per-token sets [SampleResolver.resolve] keeps for the
    intersection. *)
Definition candidate_results (db : Session) (project : Project)
    (tokens : list string) : list PySet.t :=
  filter (fun s => 0 <? PySet.len s) (map (token_set db project) tokens).

(** The events of a trace that are queries sent to the session. *)
Definition is_Execute (ev : Event) : bool :=
  match ev with
  | Execute _ _ _ => true
  | _ => false
  end.

(** What one run of the resolver of class [cls] leaves in the trace: its
    query, and the error logged if the query raised. *)
Definition run_events (db : Session) (project : Project) (token : string)
    (cls : ResolverType) : list Event :=
  Execute cls (SampleTokenResolver.wrap token) (project_id_ project)
  :: match match_ db cls token project with
     | Return _ => []
     | Raise e => [LogError cls e]
     end.

(* ================================================================== *)
(** * A small database for the scenarios *)

Module Scenario.

Definition P : Project := mkProject 1 "P".
Definition Q : Project := mkProject 2 "Q".

Definition n1 : Sample := mkSample 1 "s1" 1 "Alpha".
Definition n2 : Sample := mkSample 2 "s2" 1 "beta-alpha".
Definition n3 : Sample := mkSample 3 "s3" 2 "alpha-other".

Definition db : Session :=
  mkSession [P; Q] [n1; n2; n3]
    [mkSampleStage 10 1 100 (Some "polished ALPHA");
     mkSampleStage 11 2 101 None]
    [mkMethod 100 "x-ray"; mkMethod 101 "tensile"]
    (fun _ _ _ => None).

End Scenario.

(* ================================================================== *)
(** * Identity keys *)

Lemma key_eqb_eq (k1 k2 : Key) : key_eqb k1 k2 = true <-> k1 = k2.
Proof.
  destruct k1 as [[i1 o1] p1], k2 as [[i2 o2] p2]; unfold key_eqb.
  rewrite !andb_true_iff, !Z.eqb_eq, String.eqb_eq.
  split.
  - intros [[-> ->] ->]; reflexivity.
  - intros H; inversion H; auto.
Qed.

Lemma key_eqb_refl (k : Key) : key_eqb k k = true.
Proof. apply key_eqb_eq; reflexivity. Qed.

Lemma eqb_eq (a b : _HashableSample_) :
  HashableSample.eqb a b = true <-> __key__ a = __key__ b.
Proof. unfold HashableSample.eqb; apply key_eqb_eq. Qed.

Lemma __eq___wrapper (a b : _HashableSample_) :
  __eq__ a (PyHashableSample b) = Return (HashableSample.eqb a b).
Proof. reflexivity. Qed.

(* ================================================================== *)
(** * The set operations, seen through the identity keys *)

Module PySetFacts.

Lemma contains_iff (s : PySet.t) (x : _HashableSample_) :
  PySet.contains s x = true <-> In (__key__ x) (keys s).
Proof.
  unfold PySet.contains, keys.
  rewrite existsb_exists, in_map_iff.
  split; intros [y [H1 H2]]; exists y.
  - apply eqb_eq in H2; auto.
  - split; [tauto | apply eqb_eq; tauto].
Qed.

Lemma contains_false_iff (s : PySet.t) (x : _HashableSample_) :
  PySet.contains s x = false <-> ~ In (__key__ x) (keys s).
Proof.
  rewrite <- contains_iff. destruct (PySet.contains s x); split; congruence.
Qed.

Lemma keys_add (s : PySet.t) (x : _HashableSample_) (k : Key) :
  In k (keys (PySet.add s x)) <-> In k (keys s) \/ k = __key__ x.
Proof.
  unfold PySet.add.
  destruct (PySet.contains s x) eqn:E.
  - apply contains_iff in E. split; [tauto | intros [H | ->]; assumption].
  - unfold keys. rewrite map_app, in_app_iff. simpl.
    split.
    + intros [H | [H | []]]; auto.
    + intros [H | H]; auto.
Qed.

Lemma NoDup_add (s : PySet.t) (x : _HashableSample_) :
  NoDup (keys s) -> NoDup (keys (PySet.add s x)).
Proof.
  intros H. unfold PySet.add.
  destruct (PySet.contains s x) eqn:E; [assumption |].
  apply contains_false_iff in E.
  unfold keys in *. rewrite map_app. simpl.
  apply NoDup_app.
  - assumption.
  - constructor; [intros [] | constructor].
  - intros k Hk [<- | []]. contradiction.
Qed.

Lemma keys_fold_add {A : Type} (f : A -> _HashableSample_) (l : list A)
    (s : PySet.t) (k : Key) :
  In k (keys (fold_left (fun res a => PySet.add res (f a)) l s))
  <-> In k (keys s) \/ In k (map (fun a => __key__ (f a)) l).
Proof.
  revert s; induction l as [| a l IH]; intros s; simpl.
  - tauto.
  - rewrite IH, keys_add. intuition auto.
Qed.

Lemma NoDup_fold_add {A : Type} (f : A -> _HashableSample_) (l : list A)
    (s : PySet.t) :
  NoDup (keys s) ->
  NoDup (keys (fold_left (fun res a => PySet.add res (f a)) l s)).
Proof.
  revert s; induction l as [| a l IH]; intros s H; simpl; auto using NoDup_add.
Qed.

Lemma keys_union (a b : PySet.t) (k : Key) :
  In k (keys (PySet.union a b)) <-> In k (keys a) \/ In k (keys b).
Proof.
  unfold PySet.union.
  rewrite (keys_fold_add (fun x => x)). unfold keys. tauto.
Qed.

Lemma NoDup_union (a b : PySet.t) :
  NoDup (keys a) -> NoDup (keys (PySet.union a b)).
Proof. apply (NoDup_fold_add (fun x => x)). Qed.

Lemma keys_filter_contains (a b : PySet.t) (k : Key) :
  In k (keys (filter (PySet.contains b) a)) <-> In k (keys a) /\ In k (keys b).
Proof.
  unfold keys at 1 2. rewrite !in_map_iff.
  split.
  - intros [x [<- Hx]]. apply filter_In in Hx. destruct Hx as [Hx Hc].
    apply contains_iff in Hc. split; [exists x; auto | assumption].
  - intros [[x [<- Hx]] Hb]. exists x. split; [reflexivity |].
    apply filter_In. split; [assumption | apply contains_iff; assumption].
Qed.

Lemma keys_intersection (a b : PySet.t) (k : Key) :
  In k (keys (PySet.intersection a b)) <-> In k (keys a) /\ In k (keys b).
Proof.
  unfold PySet.intersection.
  destruct (PySet.len a <? PySet.len b); rewrite keys_filter_contains; tauto.
Qed.

Lemma NoDup_keys_filter (p : _HashableSample_ -> bool) (a : PySet.t) :
  NoDup (keys a) -> NoDup (keys (filter p a)).
Proof.
  unfold keys. induction a as [| x a IH]; simpl; intros H; [constructor |].
  inversion H as [| ? ? Hx Ha]; subst.
  destruct (p x); simpl; auto.
  constructor; auto.
  intros Hin. apply Hx. apply in_map_iff in Hin. destruct Hin as [y [Hy Hin]].
  apply filter_In in Hin. apply in_map_iff. exists y; tauto.
Qed.

Lemma NoDup_intersection (a b : PySet.t) :
  NoDup (keys a) -> NoDup (keys b) -> NoDup (keys (PySet.intersection a b)).
Proof.
  intros Ha Hb. unfold PySet.intersection.
  destruct (PySet.len a <? PySet.len b); auto using NoDup_keys_filter.
Qed.

Lemma keys_fold_intersection (l : list PySet.t) (s : PySet.t) (k : Key) :
  In k (keys (fold_left PySet.intersection l s))
  <-> In k (keys s) /\ forall x, In x l -> In k (keys x).
Proof.
  revert s; induction l as [| a l IH]; intros s; simpl.
  - intuition auto.
  - rewrite IH, keys_intersection. split.
    + intros [[Hs Ha] Hl]. split; [assumption |].
      intros x [<- | Hx]; auto.
    + intros [Hs Hl]. auto.
Qed.

Lemma keys_fold_union (l : list PySet.t) (s : PySet.t) (k : Key) :
  In k (keys (fold_left PySet.union l s))
  <-> In k (keys s) \/ exists x, In x l /\ In k (keys x).
Proof.
  revert s; induction l as [| a l IH]; intros s; simpl.
  - split; [tauto | intros [H | [x [[] _]]]; assumption].
  - rewrite IH, keys_union. split.
    + intros [[H | H] | [x [Hx Hk]]]; eauto.
    + intros [H | [x [[<- | Hx] Hk]]]; eauto.
Qed.

Lemma NoDup_fold_union (l : list PySet.t) (s : PySet.t) :
  NoDup (keys s) -> NoDup (keys (fold_left PySet.union l s)).
Proof.
  revert s; induction l as [| a l IH]; intros s H; simpl; auto using NoDup_union.
Qed.

Lemma len_pos_iff (s : PySet.t) : (0 <? PySet.len s) = true <-> s <> [].
Proof.
  unfold PySet.len. rewrite Z.ltb_lt.
  destruct s; simpl; split; intros H; try lia; congruence.
Qed.

End PySetFacts.

(* ================================================================== *)
(** * The monad *)

Lemma value_bind {A B : Type} (m : Py A) (k : A -> Py B) :
  value (bind m k)
  = match value m with Return a => value (k a) | Raise e => Raise e end.
Proof.
  destruct m as [[a | e] tr]; simpl; [destruct (k a); reflexivity | reflexivity].
Qed.

Lemma trace_bind {A B : Type} (m : Py A) (k : A -> Py B) :
  trace (bind m k)
  = trace m ++ match value m with Return a => trace (k a) | Raise _ => [] end.
Proof.
  destruct m as [[a | e] tr]; simpl;
    [destruct (k a); reflexivity | rewrite app_nil_r; reflexivity].
Qed.

Lemma value_try_except {A : Type} (body : Py A) (handler : PyExc -> Py A) :
  value (try_except body handler)
  = match value body with Return a => Return a | Raise e => value (handler e) end.
Proof.
  destruct body as [[a | e] tr]; simpl; [| destruct (handler e)]; reflexivity.
Qed.

Lemma trace_try_except {A : Type} (body : Py A) (handler : PyExc -> Py A) :
  trace (try_except body handler)
  = trace body
    ++ match value body with Return _ => [] | Raise e => trace (handler e) end.
Proof.
  destruct body as [[a | e] tr]; simpl;
    [rewrite app_nil_r | destruct (handler e)]; reflexivity.
Qed.

Lemma value_for_each {A B : Type} (f : A -> Py B) (g : A -> B) (l : list A) :
  (forall x, In x l -> value (f x) = Return (g x)) ->
  value (for_each f l) = Return (map g l).
Proof.
  induction l as [| x l IH]; intros H; simpl; [reflexivity |].
  rewrite value_bind, (H x) by (left; reflexivity).
  rewrite value_bind, IH by (intros; apply H; right; assumption).
  reflexivity.
Qed.

Lemma trace_for_each {A B : Type} (f : A -> Py B) (g : A -> B) (l : list A) :
  (forall x, In x l -> value (f x) = Return (g x)) ->
  trace (for_each f l) = flat_map (fun x => trace (f x)) l.
Proof.
  induction l as [| x l IH]; intros H; simpl; [reflexivity |].
  rewrite trace_bind, (H x) by (left; reflexivity).
  rewrite trace_bind.
  rewrite (value_for_each f g) by (intros; apply H; right; assumption).
  rewrite IH by (intros; apply H; right; assumption).
  simpl. rewrite app_nil_r. reflexivity.
Qed.

Lemma value_for_each_map {A B C : Type} (h : C -> A) (f : A -> Py B)
    (g : C -> B) (l : list C) :
  (forall x, In x l -> value (f (h x)) = Return (g x)) ->
  value (for_each f (map h l)) = Return (map g l).
Proof.
  induction l as [| x l IH]; intros H; simpl; [reflexivity |].
  rewrite value_bind, (H x) by (left; reflexivity).
  rewrite value_bind, IH by (intros; apply H; right; assumption).
  reflexivity.
Qed.

Lemma trace_for_each_map {A B C : Type} (h : C -> A) (f : A -> Py B)
    (g : C -> B) (l : list C) :
  (forall x, In x l -> value (f (h x)) = Return (g x)) ->
  trace (for_each f (map h l)) = flat_map (fun x => trace (f (h x))) l.
Proof.
  induction l as [| x l IH]; intros H; simpl; [reflexivity |].
  rewrite trace_bind, (H x) by (left; reflexivity).
  rewrite trace_bind.
  rewrite (value_for_each_map h f g) by (intros; apply H; right; assumption).
  rewrite IH by (intros; apply H; right; assumption).
  simpl. rewrite app_nil_r. reflexivity.
Qed.

(* ================================================================== *)
(** * One resolver, one token *)

Lemma value_run (db : Session) (cls : ResolverType) (token : string)
    (project : Project) :
  let resolver := SampleTokenResolver.make_resolver cls token project in
  value (_Resolver_.run db resolver)
  = Return (_Resolver_.set_results resolver (contribution db project token cls)).
Proof.
  intros resolver. unfold _Resolver_.run, contribution, match_.
  fold resolver. rewrite value_try_except, value_bind.
  unfold _Resolver_.resolve. simpl.
  destruct cls; simpl;
    match goal with
    | |- context [value ?m] => destruct (value m) as [rows | e]
    end; reflexivity.
Qed.

Lemma trace_run_raise (db : Session) (cls : ResolverType) (token : string)
    (project : Project) (e : PyExc) :
  match_ db cls token project = Raise e ->
  In (LogError cls e)
     (trace (_Resolver_.run db (SampleTokenResolver.make_resolver cls token project))).
Proof.
  unfold match_, _Resolver_.run, _Resolver_.resolve. intros H.
  rewrite trace_try_except, value_bind. simpl in *.
  destruct cls; simpl in *; rewrite H;
    apply in_or_app; right; simpl; left; reflexivity.
Qed.

Lemma value_resolve_token (db : Session) (project : Project) (token : string) :
  value (SampleTokenResolver.resolve db (SampleTokenResolver.__init__ project) token)
  = Return (token_set db project token).
Proof.
  unfold SampleTokenResolver.resolve, token_set.
  rewrite value_bind.
  rewrite (value_for_each_map _ _
             (fun cls => _Resolver_.set_results
                           (SampleTokenResolver.make_resolver cls token project)
                           (contribution db project token cls))).
  - simpl. reflexivity.
  - intros cls _. apply value_run.
Qed.

Lemma trace_resolve_token (db : Session) (project : Project) (token : string) :
  trace (SampleTokenResolver.resolve db (SampleTokenResolver.__init__ project) token)
  = flat_map
      (fun cls => trace (_Resolver_.run db
                           (SampleTokenResolver.make_resolver cls token project)))
      _RESOLVER_TYPES_.
Proof.
  unfold SampleTokenResolver.resolve.
  rewrite trace_bind.
  rewrite (trace_for_each_map _ _
             (fun cls => _Resolver_.set_results
                           (SampleTokenResolver.make_resolver cls token project)
                           (contribution db project token cls)))
    by (intros cls _; apply value_run).
  rewrite (value_for_each_map _ _
             (fun cls => _Resolver_.set_results
                           (SampleTokenResolver.make_resolver cls token project)
                           (contribution db project token cls)))
    by (intros cls _; apply value_run).
  simpl. rewrite !app_nil_r. reflexivity.
Qed.

Lemma all_registered (cls : ResolverType) : In cls _RESOLVER_TYPES_.
Proof. destruct cls; simpl; auto. Qed.

Lemma keys_rows_set (rows : list Sample) (k : Key) :
  In k (keys (rows_set rows)) <-> In k (map identity_of rows).
Proof.
  unfold rows_set. rewrite PySetFacts.keys_fold_add. simpl.
  unfold identity_of. tauto.
Qed.

Lemma NoDup_rows_set (rows : list Sample) : NoDup (keys (rows_set rows)).
Proof. apply PySetFacts.NoDup_fold_add. constructor. Qed.

Lemma keys_contribution (db : Session) (project : Project) (token : string)
    (cls : ResolverType) (k : Key) :
  In k (keys (contribution db project token cls))
  <-> exists rows, match_ db cls token project = Return rows
                   /\ In k (map identity_of rows).
Proof.
  unfold contribution.
  destruct (match_ db cls token project) as [rows | e].
  - rewrite keys_rows_set. split.
    + intros H; exists rows; auto.
    + intros [rows' [Heq H]]. inversion Heq; subst; assumption.
  - simpl. split; [intros [] | intros [rows [Heq _]]; discriminate].
Qed.

Lemma keys_token_set (db : Session) (project : Project) (token : string) (k : Key) :
  In k (keys (token_set db project token))
  <-> exists cls rows, In cls _RESOLVER_TYPES_
                       /\ match_ db cls token project = Return rows
                       /\ In k (map identity_of rows).
Proof.
  unfold token_set, reduce_init.
  rewrite PySetFacts.keys_fold_union. simpl keys at 1. split.
  - intros [[] | [s [Hs Hk]]].
    apply in_map_iff in Hs. destruct Hs as [cls [<- Hcls]].
    apply keys_contribution in Hk. destruct Hk as [rows [H1 H2]].
    exists cls, rows; auto.
  - intros [cls [rows [Hcls [H1 H2]]]]. right.
    exists (contribution db project token cls). split.
    + apply in_map; assumption.
    + apply keys_contribution. exists rows; auto.
Qed.

Lemma NoDup_token_set (db : Session) (project : Project) (token : string) :
  NoDup (keys (token_set db project token)).
Proof. apply PySetFacts.NoDup_fold_union. constructor. Qed.

(* ================================================================== *)
(** * A whole query *)

Lemma identity_of_sample (h : _HashableSample_) : identity_of (sample h) = __key__ h.
Proof. reflexivity. Qed.

Lemma keys_map_sample (S : PySet.t) : map identity_of (map sample S) = keys S.
Proof. unfold keys. rewrite map_map. reflexivity. Qed.

Lemma value_resolve_query (db : Session) (tokens : list string)
    (project_id : string) (project : Project) :
  value (get_project db project_id) = Return project ->
  value (SampleResolver.resolve db tokens project_id)
  = Return match candidate_results db project tokens with
           | [] => []
           | x :: xs => map sample (fold_left PySet.intersection xs x)
           end.
Proof.
  intros H. unfold SampleResolver.resolve.
  rewrite value_bind, H, value_bind.
  rewrite (value_for_each _ (token_set db project))
    by (intros; apply value_resolve_token).
  fold (candidate_results db project tokens).
  destruct (candidate_results db project tokens) as [| x xs]; reflexivity.
Qed.

Lemma in_candidate_results (db : Session) (project : Project)
    (tokens : list string) (S : PySet.t) :
  In S (candidate_results db project tokens)
  <-> exists t, In t tokens /\ token_set db project t = S /\ S <> [].
Proof.
  unfold candidate_results. rewrite filter_In, in_map_iff, PySetFacts.len_pos_iff.
  split.
  - intros [[t [H1 H2]] H3]. exists t; auto.
  - intros [t [H1 [H2 H3]]]. split; [exists t; auto | assumption].
Qed.

(** What the code computes: the entities found for every token that found
    something, provided some token found something. *)
Lemma keys_resolve_query (db : Session) (tokens : list string)
    (project_id : string) (project : Project) :
  value (get_project db project_id) = Return project ->
  exists result,
    value (SampleResolver.resolve db tokens project_id) = Return result
    /\ forall k,
         In k (map identity_of result)
         <-> (exists t, In t tokens /\ token_set db project t <> [])
             /\ (forall t, In t tokens ->
                   token_set db project t = []
                   \/ In k (keys (token_set db project t))).
Proof.
  intros H. eexists. split; [apply value_resolve_query; eassumption |].
  intros k.
  pose proof (in_candidate_results db project tokens) as Hin.
  destruct (candidate_results db project tokens) as [| x xs] eqn:E.
  - simpl. split; [intros [] |].
    intros [[t [Ht Hne]] _]. apply (proj2 (Hin (token_set db project t))).
    exists t; auto.
  - rewrite keys_map_sample, PySetFacts.keys_fold_intersection. split.
    + intros [Hx Hxs]. split.
      * destruct (proj1 (Hin x) (or_introl eq_refl)) as [t [Ht [Heq Hne]]].
        exists t. rewrite Heq. auto.
      * intros t Ht.
        destruct (token_set db project t) as [| h S'] eqn:Et; [left; reflexivity |].
        right. rewrite <- Et.
        assert (Hc : In (token_set db project t) (x :: xs)).
        { apply Hin. exists t. rewrite Et. repeat split; auto; discriminate. }
        destruct Hc as [<- | Hc]; auto.
    + intros [_ Hall]. split.
      * destruct (proj1 (Hin x) (or_introl eq_refl)) as [t [Ht [Heq Hne]]].
        destruct (Hall t Ht) as [Hempty | Hk]; congruence.
      * intros y Hy.
        destruct (proj1 (Hin y) (or_intror Hy)) as [t [Ht [Heq Hne]]].
        destruct (Hall t Ht) as [Hempty | Hk]; congruence.
Qed.

Lemma NoDup_resolve_query (db : Session) (tokens : list string)
    (project_id : string) (project : Project) (result : list Sample) :
  value (get_project db project_id) = Return project ->
  value (SampleResolver.resolve db tokens project_id) = Return result ->
  NoDup (map identity_of result).
Proof.
  intros H Hr. rewrite (value_resolve_query db tokens project_id project H) in Hr.
  inversion Hr; subst; clear Hr.
  pose proof (in_candidate_results db project tokens) as Hin.
  destruct (candidate_results db project tokens) as [| x xs]; [constructor |].
  rewrite keys_map_sample.
  assert (Hx : NoDup (keys x)).
  { destruct (proj1 (Hin x) (or_introl eq_refl)) as [t [_ [<- _]]].
    apply NoDup_token_set. }
  assert (Hxs : forall y, In y xs -> NoDup (keys y)).
  { intros y Hy. destruct (proj1 (Hin y) (or_intror Hy)) as [t [_ [<- _]]].
    apply NoDup_token_set. }
  clear Hin. revert x Hx Hxs. induction xs as [| y xs IH]; intros x Hx Hxs; simpl.
  - assumption.
  - apply IH.
    + apply PySetFacts.NoDup_intersection; [assumption | apply Hxs; left; reflexivity].
    + intros z Hz. apply Hxs. right. assumption.
Qed.

(** Where every token finds something, the code computes the intersection
    of the per-token sets. *)
Lemma resolve_query_intersection_when_all_match (db : Session)
    (tokens : list string) (project_id : string) (project : Project) :
  value (get_project db project_id) = Return project ->
  tokens <> [] ->
  (forall t, In t tokens -> token_set db project t <> []) ->
  exists result,
    value (SampleResolver.resolve db tokens project_id) = Return result
    /\ forall k,
         In k (map identity_of result)
         <-> forall t, In t tokens -> In k (keys (token_set db project t)).
Proof.
  intros H Hne Hall.
  destruct (keys_resolve_query db tokens project_id project H) as [result [Hr Hk]].
  exists result. split; [assumption |]. intros k. rewrite Hk. split.
  - intros [_ Hin] t Ht. destruct (Hin t Ht) as [He | Hi]; [| assumption].
    exfalso. apply (Hall t Ht He).
  - intros Hin. split.
    + destruct tokens as [| t ts]; [congruence |].
      exists t. split; [left; reflexivity | apply Hall; left; reflexivity].
    + intros t Ht. right. auto.
Qed.

(* ================================================================== *)
(** * LIKE on a wrapped token *)

Module LikeFacts.
Import SQL.

Lemma lower_ascii_wildcard (c : ascii) :
  Ascii.eqb (lower_ascii c) "%" = Ascii.eqb c "%"
  /\ Ascii.eqb (lower_ascii c) "_" = Ascii.eqb c "_".
Proof.
  destruct c as [[] [] [] [] [] [] [] []]; vm_compute; split; reflexivity.
Qed.

Lemma lower_append (a b : string) :
  lower (a ++ b) = (lower a ++ lower b)%string.
Proof.
  induction a as [| c a IH]; simpl; [reflexivity | rewrite IH; reflexivity].
Qed.

Lemma lower_wrap (token : string) :
  lower (SampleTokenResolver.wrap token) = SampleTokenResolver.wrap (lower token).
Proof.
  unfold SampleTokenResolver.wrap. rewrite !lower_append. reflexivity.
Qed.

Lemma wildcard_free_lower (token : string) :
  wildcard_free (lower token) = wildcard_free token.
Proof.
  induction token as [| c token IH]; simpl; [reflexivity |].
  destruct (lower_ascii_wildcard c) as [-> ->]. rewrite IH. reflexivity.
Qed.

Lemma like_any_run (pattern v : string) :
  like (String "%" pattern) v
  = like pattern v
    || match v with
       | EmptyString => false
       | String _ v' => like (String "%" pattern) v'
       end.
Proof. destruct v; reflexivity. Qed.

Lemma like_percent (v : string) : like "%" v = true.
Proof.
  induction v as [| c v IH]; [reflexivity |].
  rewrite like_any_run, IH. apply orb_true_r.
Qed.

Lemma like_literal_prefix (p v : string) :
  wildcard_free p = true ->
  like (p ++ "%") v = String.prefix p v.
Proof.
  revert v; induction p as [| c p IH]; intros v H.
  - simpl append. rewrite like_percent. destruct v; reflexivity.
  - simpl in H. apply andb_true_iff in H. destruct H as [H Hp].
    apply andb_true_iff in H. destruct H as [H1 H2].
    apply negb_true_iff in H1, H2.
    destruct v as [| d v]; simpl; rewrite H1, H2; [reflexivity |].
    rewrite IH by assumption.
    destruct (Ascii.ascii_dec c d) as [-> | Hne].
    + rewrite Ascii.eqb_refl. reflexivity.
    + apply Ascii.eqb_neq in Hne. rewrite Hne. reflexivity.
Qed.

Lemma like_wrap (p v : string) :
  wildcard_free p = true ->
  like (SampleTokenResolver.wrap p) v = contains_str p v.
Proof.
  intros H. unfold SampleTokenResolver.wrap.
  change ("%" ++ p ++ "%")%string with (String "%" (p ++ "%")).
  induction v as [| c v IH].
  - rewrite like_any_run, like_literal_prefix by assumption. reflexivity.
  - rewrite like_any_run, like_literal_prefix, IH by assumption. reflexivity.
Qed.

(** On a token without wildcards, [ilike] with the wrapped token is
    case-insensitive containment of the token. *)
Lemma ilike_wrap (token v : string) :
  wildcard_free token = true ->
  ilike v (SampleTokenResolver.wrap token) = icontains token v.
Proof.
  intros H. unfold ilike, icontains.
  rewrite lower_wrap. apply like_wrap. rewrite wildcard_free_lower. assumption.
Qed.

Lemma ilike_nullable_wrap (token : string) (v : option string) :
  wildcard_free token = true ->
  ilike_nullable v (SampleTokenResolver.wrap token) = icontains_nullable token v.
Proof. intros H. destruct v; simpl; auto using ilike_wrap. Qed.

Lemma prefix_iff (p v : string) :
  String.prefix p v = true <-> exists post, v = (p ++ post)%string.
Proof.
  revert v; induction p as [| c p IH]; intros v.
  - split; [intros _; exists v; reflexivity | destruct v; reflexivity].
  - destruct v as [| d v]; simpl.
    + split; [discriminate | intros [post H]; discriminate].
    + destruct (Ascii.ascii_dec c d) as [-> | Hne].
      * rewrite IH. split; intros [post H]; exists post.
        -- rewrite H; reflexivity.
        -- inversion H; reflexivity.
      * split; [discriminate | intros [post H]; inversion H; subst; exfalso; apply Hne; reflexivity].
Qed.

Lemma contains_str_unfold (p v : string) :
  contains_str p v
  = String.prefix p v
    || match v with
       | EmptyString => false
       | String _ v' => contains_str p v'
       end.
Proof. destruct v; reflexivity. Qed.

(** [contains_str] is substring containment. *)
Lemma contains_str_iff (p v : string) :
  contains_str p v = true <-> exists pre post, v = (pre ++ p ++ post)%string.
Proof.
  induction v as [| c v IH];
    rewrite contains_str_unfold, orb_true_iff, prefix_iff.
  - split.
    + intros [[post H] | H]; [exists EmptyString, post; assumption | discriminate].
    + intros [pre [post H]]. left.
      destruct pre; [exists post; assumption | discriminate].
  - rewrite IH. split.
    + intros [[post H] | [pre [post H]]].
      * exists EmptyString, post; assumption.
      * exists (String c pre), post. rewrite H; reflexivity.
    + intros [pre [post H]]. destruct pre as [| d pre].
      * left; exists post; assumption.
      * right. exists pre, post. inversion H; reflexivity.
Qed.

End LikeFacts.

(* ================================================================== *)
(** * The queries of the three resolvers *)

Lemma value_all {A : Type} (db : Session) (cls : ResolverType) (token : string)
    (project_id : Z) (rows : list A) :
  value (all db cls token project_id rows)
  = match execute_error db cls token project_id with
    | Some e => Raise e
    | None => Return rows
    end.
Proof.
  unfold all. rewrite value_bind. simpl.
  destruct (execute_error db cls token project_id); reflexivity.
Qed.

Lemma trace_all {A : Type} (db : Session) (cls : ResolverType) (token : string)
    (project_id : Z) (rows : list A) :
  trace (all db cls token project_id rows) = [Execute cls token project_id].
Proof.
  unfold all. rewrite trace_bind. simpl.
  destruct (execute_error db cls token project_id); reflexivity.
Qed.

Lemma in_join_sample_stages (db : Session) (st : SampleStage) (sa : Sample) :
  In (st, sa) (join_sample_stages db)
  <-> In st (sample_stages db) /\ In sa (samples db) /\ id sa = stage_sample_id st.
Proof.
  unfold join_sample_stages. rewrite in_flat_map. split.
  - intros [st' [Hst Hin]]. apply in_map_iff in Hin.
    destruct Hin as [sa' [Heq Hsa]]. inversion Heq; subst.
    apply filter_In in Hsa. destruct Hsa as [Hsa Hid].
    apply Z.eqb_eq in Hid. auto.
  - intros [Hst [Hsa Hid]]. exists st. split; [assumption |].
    apply in_map_iff. exists sa. split; [reflexivity |].
    apply filter_In. split; [assumption | apply Z.eqb_eq; assumption].
Qed.

Lemma in_join_method_stages (db : Session) (st1 : SampleStage) (m : Method) :
  In (st1, m) (join_method_stages db)
  <-> In st1 (sample_stages db) /\ In m (methods db)
      /\ method_id m = stage_method_id st1.
Proof.
  unfold join_method_stages. rewrite in_flat_map. split.
  - intros [st' [Hst Hin]]. apply in_map_iff in Hin.
    destruct Hin as [m' [Heq Hm]]. inversion Heq; subst.
    apply filter_In in Hm. destruct Hm as [Hm Hid].
    apply Z.eqb_eq in Hid. auto.
  - intros [Hst [Hm Hid]]. exists st1. split; [assumption |].
    apply in_map_iff. exists m. split; [reflexivity |].
    apply filter_In. split; [assumption | apply Z.eqb_eq; assumption].
Qed.

(** The rows of the name resolver: the samples of the project whose name
    is LIKE the token. *)
Lemma rows_SampleNameResolver (db : Session) (token : string) (project : Project)
    (rows : list Sample) (s : Sample) :
  match_ db SampleNameResolver token project = Return rows ->
  In s rows
  <-> In s (samples db) /\ _project_id s = project_id_ project
      /\ SQL.ilike (name s) (SampleTokenResolver.wrap token) = true.
Proof.
  unfold match_, _Resolver_.resolve. simpl.
  unfold _SampleNameResolver_.resolve. rewrite value_all.
  destruct (execute_error db _ _ _); [discriminate |].
  intros H; inversion H; subst; clear H.
  rewrite !filter_In, Z.eqb_eq. tauto.
Qed.

(** The rows of the annotation resolver: the samples of the project with a
    stage whose annotation is LIKE the token. *)
Lemma rows_StageAnnotationResolver (db : Session) (token : string)
    (project : Project) (rows : list Sample) (s : Sample) :
  match_ db StageAnnotationResolver token project = Return rows ->
  In s rows
  <-> In s (samples db) /\ _project_id s = project_id_ project
      /\ exists st, In st (sample_stages db) /\ id s = stage_sample_id st
                    /\ SQL.ilike_nullable (annotation st)
                         (SampleTokenResolver.wrap token) = true.
Proof.
  unfold match_, _Resolver_.resolve. simpl.
  unfold _StageAnnotationResolver_.resolve. rewrite value_bind, value_all.
  destruct (execute_error db _ _ _); [discriminate |].
  simpl. intros H; inversion H; subst; clear H.
  rewrite in_map_iff. split.
  - intros [[st sa] [Heq Hin]]. simpl in Heq; subst sa.
    rewrite !filter_In in Hin. simpl in Hin.
    destruct Hin as [[Hj Hp] Hl].
    apply in_join_sample_stages in Hj. destruct Hj as [Hst [Hsa Hid]].
    apply Z.eqb_eq in Hp. split; [assumption |]. split; [assumption |].
    exists st; auto.
  - intros [Hsa [Hp [st [Hst [Hid Hl]]]]]. exists (st, s). split; [reflexivity |].
    rewrite !filter_In. simpl. split; [split |]; auto.
    + apply in_join_sample_stages; auto.
    + apply Z.eqb_eq; assumption.
Qed.

(** The rows of the method resolver: the samples of the project with a
    stage, sharing its id with a stage whose method name is LIKE the
    token. *)
Lemma rows_StageMethodResolver (db : Session) (token : string)
    (project : Project) (rows : list Sample) (s : Sample) :
  match_ db StageMethodResolver token project = Return rows ->
  In s rows
  <-> In s (samples db) /\ _project_id s = project_id_ project
      /\ exists st st1 m,
           In st (sample_stages db) /\ id s = stage_sample_id st
           /\ In st1 (sample_stages db) /\ stage_id st = stage_id st1
           /\ In m (methods db) /\ method_id m = stage_method_id st1
           /\ SQL.ilike (method_name m) (SampleTokenResolver.wrap token) = true.
Proof.
  unfold match_, _Resolver_.resolve. simpl.
  unfold _StageMethodResolver_.resolve. rewrite value_bind, value_all.
  destruct (execute_error db _ _ _); [discriminate |].
  simpl. intros H; inversion H; subst; clear H.
  rewrite in_map_iff. split.
  - intros [[[st sa] [st1 m]] [Heq Hin]]. simpl in Heq; subst sa.
    rewrite !filter_In in Hin. simpl in Hin.
    destruct Hin as [[[Hprod Hsid] Hp] Hl].
    apply in_prod_iff in Hprod. destruct Hprod as [Hj Hjm].
    apply in_join_sample_stages in Hj. destruct Hj as [Hst [Hsa Hid]].
    apply in_join_method_stages in Hjm. destruct Hjm as [Hst1 [Hm Hmid]].
    apply Z.eqb_eq in Hp, Hsid. split; [assumption |]. split; [assumption |].
    exists st, st1, m. repeat split; assumption.
  - intros [Hsa [Hp [st [st1 [m [Hst [Hid [Hst1 [Hsid [Hm [Hmid Hl]]]]]]]]]]].
    exists ((st, s), (st1, m)). split; [reflexivity |].
    rewrite !filter_In. simpl. repeat split; auto.
    + apply in_prod_iff. split.
      * apply in_join_sample_stages; auto.
      * apply in_join_method_stages; auto.
    + apply Z.eqb_eq; assumption.
    + apply Z.eqb_eq; assumption.
Qed.

(** The rows a matcher returns are samples of the session. *)
Lemma rows_in_samples (db : Session) (cls : ResolverType) (token : string)
    (project : Project) (rows : list Sample) (s : Sample) :
  match_ db cls token project = Return rows -> In s rows -> In s (samples db).
Proof.
  intros H Hin. destruct cls.
  - apply (rows_SampleNameResolver db token project rows s H) in Hin. tauto.
  - apply (rows_StageMethodResolver db token project rows s H) in Hin. tauto.
  - apply (rows_StageAnnotationResolver db token project rows s H) in Hin. tauto.
Qed.

(* ================================================================== *)
(** * The elements of the sets *)

Module PySetElements.

Lemma in_add (s : PySet.t) (y x : _HashableSample_) :
  In x (PySet.add s y) -> In x s \/ x = y.
Proof.
  unfold PySet.add. destruct (PySet.contains s y); [auto |].
  intros H. apply in_app_or in H. destruct H as [H | [H | []]]; auto.
Qed.

Lemma in_fold_add {A : Type} (f : A -> _HashableSample_) (l : list A)
    (s : PySet.t) (x : _HashableSample_) :
  In x (fold_left (fun res a => PySet.add res (f a)) l s) ->
  In x s \/ exists a, In a l /\ x = f a.
Proof.
  revert s; induction l as [| a l IH]; intros s H; simpl in H; [auto |].
  apply IH in H. destruct H as [H | [b [Hb Hx]]].
  - apply in_add in H. destruct H as [H | H]; [auto |].
    right. exists a. split; [left; reflexivity | assumption].
  - right. exists b. split; [right; assumption | assumption].
Qed.

Lemma in_union (a b : PySet.t) (x : _HashableSample_) :
  In x (PySet.union a b) -> In x a \/ In x b.
Proof.
  unfold PySet.union. intros H. apply (in_fold_add (fun y => y)) in H.
  destruct H as [H | [y [Hy ->]]]; auto.
Qed.

Lemma in_fold_union (l : list PySet.t) (s : PySet.t) (x : _HashableSample_) :
  In x (fold_left PySet.union l s) -> In x s \/ exists y, In y l /\ In x y.
Proof.
  revert s; induction l as [| a l IH]; intros s H; simpl in H; [auto |].
  apply IH in H. destruct H as [H | [y [Hy Hx]]].
  - apply in_union in H. destruct H as [H | H]; [auto |].
    right. exists a. split; [left; reflexivity | assumption].
  - right. exists y. split; [right; assumption | assumption].
Qed.

Lemma in_intersection (a b : PySet.t) (x : _HashableSample_) :
  In x (PySet.intersection a b) -> In x a \/ In x b.
Proof.
  unfold PySet.intersection.
  destruct (PySet.len a <? PySet.len b); intros H; apply filter_In in H; tauto.
Qed.

Lemma in_fold_intersection (l : list PySet.t) (s : PySet.t)
    (x : _HashableSample_) :
  In x (fold_left PySet.intersection l s) ->
  In x s \/ exists y, In y l /\ In x y.
Proof.
  revert s; induction l as [| a l IH]; intros s H; simpl in H; [auto |].
  apply IH in H. destruct H as [H | [y [Hy Hx]]].
  - apply in_intersection in H. destruct H as [H | H]; [auto |].
    right. exists a. split; [left; reflexivity | assumption].
  - right. exists y. split; [right; assumption | assumption].
Qed.

End PySetElements.

(** Every element of the set of a token wraps a sample of the session. *)
Lemma token_set_in_samples (db : Session) (project : Project) (token : string)
    (h : _HashableSample_) :
  In h (token_set db project token) -> In (sample h) (samples db).
Proof.
  unfold token_set, reduce_init. intros H.
  apply PySetElements.in_fold_union in H.
  destruct H as [[] | [S [HS Hh]]].
  apply in_map_iff in HS. destruct HS as [cls [<- _]].
  unfold contribution in Hh.
  destruct (match_ db cls token project) as [rows | e] eqn:E; [| destruct Hh].
  unfold rows_set in Hh. apply PySetElements.in_fold_add in Hh.
  destruct Hh as [[] | [s [Hs ->]]].
  simpl. eapply rows_in_samples; eassumption.
Qed.

(** Every entity a query returns is a sample of the session. *)
Lemma resolve_query_in_samples (db : Session) (tokens : list string)
    (project_id : string) (project : Project) (result : list Sample)
    (s : Sample) :
  value (get_project db project_id) = Return project ->
  value (SampleResolver.resolve db tokens project_id) = Return result ->
  In s result -> In s (samples db).
Proof.
  intros H Hr Hs. rewrite (value_resolve_query db tokens project_id project H) in Hr.
  inversion Hr; subst; clear Hr.
  pose proof (in_candidate_results db project tokens) as Hin.
  destruct (candidate_results db project tokens) as [| x xs]; [destruct Hs |].
  apply in_map_iff in Hs. destruct Hs as [h [<- Hh]].
  apply PySetElements.in_fold_intersection in Hh.
  destruct Hh as [Hh | [y [Hy Hh]]].
  - destruct (proj1 (Hin x) (or_introl eq_refl)) as [t [_ [<- _]]].
    eapply token_set_in_samples; eassumption.
  - destruct (proj1 (Hin y) (or_intror Hy)) as [t [_ [<- _]]].
    eapply token_set_in_samples; eassumption.
Qed.

(* ================================================================== *)
(** * A failing query *)

Lemma cls_eqb_eq (a b : ResolverType) : cls_eqb a b = true <-> a = b.
Proof. destruct a, b; simpl; split; congruence. Qed.

Lemma cls_eqb_refl (a : ResolverType) : cls_eqb a a = true.
Proof. destruct a; reflexivity. Qed.

Lemma length_append (a b : string) :
  String.length (a ++ b) = (String.length a + String.length b)%nat.
Proof. induction a as [| x a IH]; simpl; [reflexivity | rewrite IH; reflexivity]. Qed.

Lemma append_inj_l (a b c : string) : (a ++ c = b ++ c)%string -> a = b.
Proof.
  revert b; induction a as [| x a IH]; intros b H.
  - destruct b as [| y b]; [reflexivity |].
    exfalso. apply (f_equal String.length) in H.
    simpl in H. rewrite length_append in H. lia.
  - destruct b as [| y b].
    + exfalso. apply (f_equal String.length) in H.
      simpl in H. rewrite length_append in H. lia.
    + simpl in H. inversion H; subst. f_equal. apply IH. assumption.
Qed.

Lemma wrap_inj (t t' : string) :
  SampleTokenResolver.wrap t = SampleTokenResolver.wrap t' -> t = t'.
Proof.
  unfold SampleTokenResolver.wrap. simpl. intros H. inversion H as [H'].
  eapply append_inj_l; eassumption.
Qed.

Lemma resolve_fail_at_other (db : Session) (cls0 : ResolverType) (token0 : string)
    (project_id0 : Z) (e : PyExc) (r : _Resolver_.t) (token : string)
    (project_id : Z) :
  cls_eqb (_Resolver_.cls r) cls0 && (token =? token0)%string
    && (project_id =? project_id0) = false ->
  _Resolver_.resolve r (fail_at db cls0 token0 project_id0 e) token project_id
  = _Resolver_.resolve r db token project_id.
Proof.
  destruct r as [c p t s]. unfold _Resolver_.resolve. simpl. intros H.
  destruct c;
    unfold _SampleNameResolver_.resolve, _StageMethodResolver_.resolve,
      _StageAnnotationResolver_.resolve, all, fail_at;
    cbn [execute_error]; rewrite H; reflexivity.
Qed.

Lemma match__fail_at_same (db : Session) (cls0 : ResolverType) (token : string)
    (project : Project) (e : PyExc) :
  match_ (fail_at db cls0 (SampleTokenResolver.wrap token) (project_id_ project) e)
    cls0 token project
  = Raise e.
Proof.
  unfold match_, _Resolver_.resolve, SampleTokenResolver.make_resolver.
  cbn [_Resolver_.cls _Resolver_.token _Resolver_.project].
  destruct cls0;
    unfold _SampleNameResolver_.resolve, _StageMethodResolver_.resolve,
      _StageAnnotationResolver_.resolve;
    rewrite ?value_bind, value_all; unfold fail_at; cbn [execute_error cls_eqb];
    rewrite String.eqb_refl, Z.eqb_refl; reflexivity.
Qed.

Lemma contribution_fail_at_other (db : Session) (cls0 cls : ResolverType)
    (token0 : string) (project_id0 : Z) (e : PyExc) (token : string)
    (project : Project) :
  cls_eqb cls cls0 = false ->
  contribution (fail_at db cls0 token0 project_id0 e) project token cls
  = contribution db project token cls.
Proof.
  intros H. unfold contribution, match_.
  rewrite resolve_fail_at_other by (simpl; rewrite H; reflexivity).
  reflexivity.
Qed.

Lemma for_each_ext {A B : Type} (f g : A -> Py B) (l : list A) :
  (forall x, In x l -> f x = g x) -> for_each f l = for_each g l.
Proof.
  induction l as [| x l IH]; intros H; simpl; [reflexivity |].
  rewrite (H x) by (left; reflexivity).
  rewrite IH by (intros; apply H; right; assumption).
  reflexivity.
Qed.

Lemma resolve_token_fail_at_other_token (db : Session) (cls0 : ResolverType)
    (token : string) (project : Project) (e : PyExc) (token' : string) :
  token' <> token ->
  SampleTokenResolver.resolve
    (fail_at db cls0 (SampleTokenResolver.wrap token) (project_id_ project) e)
    (SampleTokenResolver.__init__ project) token'
  = SampleTokenResolver.resolve db (SampleTokenResolver.__init__ project) token'.
Proof.
  intros Hne. unfold SampleTokenResolver.resolve. f_equal.
  apply for_each_ext. intros r Hr.
  apply in_map_iff in Hr. destruct Hr as [cls [<- _]].
  unfold _Resolver_.run, SampleTokenResolver.make_resolver, _Resolver_.set_results.
  cbn [_Resolver_.cls _Resolver_.token _Resolver_.project _Resolver_.results].
  rewrite resolve_fail_at_other; [reflexivity |].
  cbn [_Resolver_.cls].
  destruct (String.eqb_spec (SampleTokenResolver.wrap token')
              (SampleTokenResolver.wrap token)) as [Heq | Hneq].
  - exfalso. apply Hne. apply wrap_inj. assumption.
  - rewrite andb_false_r. reflexivity.
Qed.

Lemma trace_run_execute (db : Session) (cls : ResolverType) (token : string)
    (project : Project) :
  In (Execute cls (SampleTokenResolver.wrap token) (project_id_ project))
     (trace (_Resolver_.run db (SampleTokenResolver.make_resolver cls token project))).
Proof.
  unfold _Resolver_.run, _Resolver_.resolve.
  rewrite trace_try_except, trace_bind. simpl.
  destruct cls;
    unfold _SampleNameResolver_.resolve, _StageMethodResolver_.resolve,
      _StageAnnotationResolver_.resolve;
    rewrite ?trace_bind, trace_all; simpl; left; reflexivity.
Qed.

(* ================================================================== *)
(** * What each matcher searches *)

Lemma existsb_pointwise {A : Type} (f g : A -> bool) (l : list A) :
  (forall x, f x = g x) -> existsb f l = existsb g l.
Proof.
  intros H. induction l as [| x l IH]; simpl; [reflexivity |].
  rewrite H, IH. reflexivity.
Qed.

(** The rows of every matcher, in one statement: the samples of the project
    one of whose searched values is LIKE the wrapped token, case folded. *)
Lemma rows_searched_values (db : Session) (cls : ResolverType) (token : string)
    (project : Project) (rows : list Sample) (s : Sample) :
  match_ db cls token project = Return rows ->
  In s rows
  <-> In s (samples db) /\ _project_id s = project_id_ project
      /\ existsb (fun v => SQL.ilike_nullable v (SampleTokenResolver.wrap token))
           (searched_values db cls s) = true.
Proof.
  intros H. destruct cls.
  - rewrite (rows_SampleNameResolver db token project rows s H).
    unfold searched_values. simpl existsb. rewrite orb_false_r. tauto.
  - rewrite (rows_StageMethodResolver db token project rows s H).
    unfold searched_values. rewrite existsb_exists.
    split; intros [Hs [Hp Hex]]; (split; [assumption |]); (split; [assumption |]).
    + destruct Hex as [st [st1 [m [Hst [Hid [Hst1 [Hsid [Hm [Hmid Hl]]]]]]]]].
      exists (Some (method_name m)). split; [| assumption].
      apply in_flat_map. exists st. split.
      { apply filter_In. split; [assumption | apply Z.eqb_eq; assumption]. }
      apply in_flat_map. exists st1. split.
      { apply filter_In. split; [assumption | apply Z.eqb_eq; assumption]. }
      apply in_map_iff. exists m. split; [reflexivity |].
      apply filter_In. split; [assumption | apply Z.eqb_eq; assumption].
    + destruct Hex as [v [Hv Hl]].
      apply in_flat_map in Hv. destruct Hv as [st [Hst Hv]].
      apply filter_In in Hst. destruct Hst as [Hst Hid]. apply Z.eqb_eq in Hid.
      apply in_flat_map in Hv. destruct Hv as [st1 [Hst1 Hv]].
      apply filter_In in Hst1. destruct Hst1 as [Hst1 Hsid]. apply Z.eqb_eq in Hsid.
      apply in_map_iff in Hv. destruct Hv as [m [<- Hm]].
      apply filter_In in Hm. destruct Hm as [Hm Hmid]. apply Z.eqb_eq in Hmid.
      exists st, st1, m. repeat split; assumption.
  - rewrite (rows_StageAnnotationResolver db token project rows s H).
    unfold searched_values. rewrite existsb_exists.
    split; intros [Hs [Hp Hex]]; (split; [assumption |]); (split; [assumption |]).
    + destruct Hex as [st [Hst [Hid Hl]]].
      exists (annotation st). split; [| assumption].
      apply in_map. apply filter_In. split; [assumption | apply Z.eqb_eq; assumption].
    + destruct Hex as [v [Hv Hl]].
      apply in_map_iff in Hv. destruct Hv as [st [<- Hst]].
      apply filter_In in Hst. destruct Hst as [Hst Hid]. apply Z.eqb_eq in Hid.
      exists st. auto.
Qed.

Lemma get_project_found (db : Session) (project_id : string) (project : Project) :
  value (get_project db project_id) = Return project ->
  get_project db project_id = (Return project, [GetProject project_id]).
Proof.
  unfold get_project. rewrite value_bind. simpl.
  destruct (find _ (projects db)) as [p |]; simpl; [| discriminate].
  intros H; inversion H; reflexivity.
Qed.

Lemma get_project_absent (db : Session) (project_id : string) :
  (forall p, In p (projects db) -> project_obfuscated_id p <> project_id) ->
  get_project db project_id
  = (Raise (ProjectNotFound project_id), [GetProject project_id]).
Proof.
  intros H. unfold get_project.
  destruct (find _ (projects db)) as [p |] eqn:E; [| reflexivity].
  apply find_some in E. destruct E as [Hin Heq].
  apply String.eqb_eq in Heq. exfalso. apply (H p Hin Heq).
Qed.

(* ================================================================== *)
(** * The properties of the resolver *)

(** C1.  A token without hits should empty the whole query.  The code drops
    the empty per-token sets before it intersects: in the scenario, ["zzz"]
    resolves to the empty set, and the query [["alpha"; "zzz"]] still
    returns the two samples found for ["alpha"]. *)
Theorem resolve_drops_token_without_hits :
  value (SampleTokenResolver.resolve Scenario.db
           (SampleTokenResolver.__init__ Scenario.P) "zzz")
  = Return PySet.empty
  /\ value (SampleResolver.resolve Scenario.db ["alpha"; "zzz"] "P")
     = Return [Scenario.n1; Scenario.n2].
Proof. split; vm_compute; reflexivity. Qed.

(** C2.  The result of a query should be the intersection of the sets of
    all its tokens.  In the scenario the query [["beta"; "zzz"]] returns
    sample [n2], which is not in the set of ["zzz"]: the result is the
    intersection of the non-empty sets only. *)
Theorem resolve_is_not_intersection_of_all_tokens :
  value (SampleResolver.resolve Scenario.db ["beta"; "zzz"] "P")
  = Return [Scenario.n2]
  /\ ~ (forall t, In t ["beta"; "zzz"] ->
          In (identity_of Scenario.n2)
             (keys (token_set Scenario.db Scenario.P t))).
Proof.
  split; [vm_compute; reflexivity |].
  intros H. specialize (H "zzz" (or_intror (or_introl eq_refl))).
  vm_compute in H. exact H.
Qed.

(** C3.  [SampleTokenResolver.resolve] returns a set; an entity [E] is in
    it exactly when some registered matcher returns rows holding an entity
    with the identity key of [E]; and no identity key occurs twice in the
    set. *)
Theorem resolve_token_is_union_by_identity (db : Session) (project : Project)
    (token : string) :
  exists S,
    value (SampleTokenResolver.resolve db (SampleTokenResolver.__init__ project)
             token) = Return S
    /\ NoDup (keys S)
    /\ forall E : Sample,
         PySet.contains S (HashableSample.__init__ E) = true
         <-> exists cls rows E',
               In cls _RESOLVER_TYPES_
               /\ match_ db cls token project = Return rows
               /\ In E' rows
               /\ identity_of E' = identity_of E.
Proof.
  exists (token_set db project token).
  split; [apply value_resolve_token |].
  split; [apply NoDup_token_set |].
  intros E. rewrite PySetFacts.contains_iff, keys_token_set.
  fold (identity_of E). split.
  - intros [cls [rows [Hcls [Hm Hin]]]].
    apply in_map_iff in Hin. destruct Hin as [E' [Hk HE']].
    exists cls, rows, E'. auto.
  - intros [cls [rows [E' [Hcls [Hm [HE' Hk]]]]]].
    exists cls, rows. split; [assumption |]. split; [assumption |].
    rewrite <- Hk. apply in_map. assumption.
Qed.

(** C4.  Let the query of matcher [cls0] for [token] raise [e].  Resolving
    the token still returns a set, the union in which [cls0] contributes the
    empty set and every other matcher what it contributes without the
    failure; [e] is logged; resolving any other token is unchanged; and a
    query on a resolvable project returns a list. *)
Theorem matcher_failure_is_isolated (db : Session) (project : Project)
    (token : string) (cls0 : ResolverType) (e : PyExc) :
  let db' :=
    fail_at db cls0 (SampleTokenResolver.wrap token) (project_id_ project) e in
  let self := SampleTokenResolver.__init__ project in
  value (SampleTokenResolver.resolve db' self token)
  = Return (reduce_init PySet.union
              (map (fun cls => if cls_eqb cls cls0 then PySet.empty
                               else contribution db project token cls)
                 _RESOLVER_TYPES_)
              PySet.empty)
  /\ In (LogError cls0 e) (trace (SampleTokenResolver.resolve db' self token))
  /\ (forall token', token' <> token ->
        SampleTokenResolver.resolve db' self token'
        = SampleTokenResolver.resolve db self token')
  /\ (forall tokens project_id project',
        value (get_project db' project_id) = Return project' ->
        exists result,
          value (SampleResolver.resolve db' tokens project_id) = Return result).
Proof.
  intros db' self. split; [| split; [| split]].
  - unfold self. rewrite value_resolve_token. unfold token_set. do 2 f_equal.
    apply map_ext. intros cls.
    destruct (cls_eqb cls cls0) eqn:E.
    + apply cls_eqb_eq in E. subst cls. unfold contribution, db'.
      rewrite match__fail_at_same. reflexivity.
    + apply contribution_fail_at_other. assumption.
  - unfold self. rewrite trace_resolve_token. apply in_flat_map.
    exists cls0. split; [apply all_registered |].
    apply trace_run_raise. apply match__fail_at_same.
  - intros token' Hne. apply resolve_token_fail_at_other_token. assumption.
  - intros tokens project_id project' H. eexists.
    apply value_resolve_query. eassumption.
Qed.

Lemma matcher_failure_is_isolated_witness :
  let db' :=
    fail_at Scenario.db SampleNameResolver "%alpha%" 1 (DatabaseError "locked") in
  let self := SampleTokenResolver.__init__ Scenario.P in
  value (SampleTokenResolver.resolve db' self "alpha")
  = Return [HashableSample.__init__ Scenario.n1]
  /\ In (LogError SampleNameResolver (DatabaseError "locked"))
        (trace (SampleTokenResolver.resolve db' self "alpha"))
  /\ ("beta" <> "alpha" ->
      SampleTokenResolver.resolve db' self "beta"
      = SampleTokenResolver.resolve Scenario.db self "beta")
  /\ (value (get_project db' "P") = Return Scenario.P ->
      exists result,
        value (SampleResolver.resolve db' ["alpha"; "beta"] "P") = Return result).
Proof.
  pose proof (matcher_failure_is_isolated Scenario.db Scenario.P "alpha"
                SampleNameResolver (DatabaseError "locked")) as H.
  destruct H as [H1 [H2 [H3 H4]]].
  split; [exact H1 |]. split; [exact H2 |]. split.
  - exact (H3 "beta").
  - exact (H4 ["alpha"; "beta"] "P" Scenario.P).
Defined.

(** C5.  If no project has the given obfuscated id, [SampleResolver.resolve]
    raises [ProjectNotFound], and the only call it has made is the project
    lookup: no query was executed for any token. *)
Theorem resolve_raises_ProjectNotFound (db : Session) (tokens : list string)
    (project_id : string) :
  (forall p, In p (projects db) -> project_obfuscated_id p <> project_id) ->
  SampleResolver.resolve db tokens project_id
  = (Raise (ProjectNotFound project_id), [GetProject project_id]).
Proof.
  intros H. unfold SampleResolver.resolve.
  rewrite (get_project_absent db project_id H). reflexivity.
Qed.

Lemma resolve_raises_ProjectNotFound_witness :
  (forall p, In p (projects Scenario.db) -> project_obfuscated_id p <> "R")
  /\ SampleResolver.resolve Scenario.db ["alpha"] "R"
     = (Raise (ProjectNotFound "R"), [GetProject "R"]).
Proof.
  assert (H : forall p, In p (projects Scenario.db) ->
                        project_obfuscated_id p <> "R").
  { intros p [<- | [<- | []]]; simpl; discriminate. }
  split; [exact H |].
  exact (resolve_raises_ProjectNotFound Scenario.db ["alpha"] "R" H).
Defined.

(** C6.  On a project that resolves, the empty token sequence returns the
    empty list, and does not raise. *)
Theorem resolve_empty_query (db : Session) (project_id : string)
    (project : Project) :
  value (get_project db project_id) = Return project ->
  SampleResolver.resolve db [] project_id = (Return [], [GetProject project_id]).
Proof.
  intros H. unfold SampleResolver.resolve.
  rewrite (get_project_found db project_id project H). reflexivity.
Qed.

Lemma resolve_empty_query_witness :
  value (get_project Scenario.db "P") = Return Scenario.P
  /\ SampleResolver.resolve Scenario.db [] "P" = (Return [], [GetProject "P"]).
Proof.
  split; [reflexivity |].
  exact (resolve_empty_query Scenario.db "P" Scenario.P eq_refl).
Defined.

(** C7.  The identity keys of two wrapped samples are equal exactly when
    their ids, their obfuscated ids and their project ids are equal;
    [__eq__] decides it; and wrappers with equal keys have equal hashes. *)
Theorem identity_key_equality (a b : _HashableSample_) :
  let same_components :=
    id (sample a) = id (sample b)
    /\ obfuscated_id (sample a) = obfuscated_id (sample b)
    /\ _project_id (sample a) = _project_id (sample b) in
  (__key__ a = __key__ b <-> same_components)
  /\ (__eq__ a (PyHashableSample b) = Return true <-> same_components)
  /\ (forall hash : Key -> Z,
        __key__ a = __key__ b -> __hash__ hash a = __hash__ hash b).
Proof.
  intros same_components.
  assert (Hk : __key__ a = __key__ b <-> same_components).
  { unfold __key__, same_components. split.
    - intros H; inversion H; auto.
    - intros [-> [-> ->]]; reflexivity. }
  split; [exact Hk |]. split.
  - rewrite __eq___wrapper, <- Hk, <- eqb_eq. split.
    + intros H; inversion H; reflexivity.
    + intros ->; reflexivity.
  - intros hash H. unfold __hash__. rewrite H. reflexivity.
Qed.

(** C8 as stated fails: it is not true that, for every token, the rows of
    a matcher are the samples of the project one of whose searched values
    contains the literal token ignoring case.  For the token ["_"] the name
    matcher returns sample [n1], whose name ["Alpha"] holds no underscore:
    in the pattern ["%_%"] the underscore of the token is a wildcard. *)
Lemma wildcard_in_token_is_not_literal :
  ~ (forall db cls token project rows s,
       match_ db cls token project = Return rows ->
       (In s rows
        <-> In s (samples db) /\ _project_id s = project_id_ project
            /\ existsb (icontains_nullable token) (searched_values db cls s)
                = true)).
Proof.
  intros H.
  specialize (H Scenario.db SampleNameResolver "_" Scenario.P
                [Scenario.n1; Scenario.n2] Scenario.n1 eq_refl).
  destruct H as [H _]. specialize (H (or_introl eq_refl)).
  destruct H as [_ [_ H]]. vm_compute in H. discriminate H.
Qed.

(** C8, amended.  For every token, each matcher hands the session the
    pattern ["%" ++ token ++ "%"], and its rows are the samples of the
    project one of whose searched values is LIKE that pattern, both case
    folded.  If the token holds neither [%] nor [_], these are the samples
    one of whose searched values contains the literal token ignoring
    case. *)
Theorem wrapped_token_search (db : Session) (project : Project) (token : string) :
  (forall cls,
     In (Execute cls ("%" ++ token ++ "%")%string (project_id_ project))
        (trace (SampleTokenResolver.resolve db
                  (SampleTokenResolver.__init__ project) token)))
  /\ (forall cls rows s,
        match_ db cls token project = Return rows ->
        (In s rows
         <-> In s (samples db) /\ _project_id s = project_id_ project
             /\ existsb
                  (fun v => SQL.ilike_nullable v ("%" ++ token ++ "%")%string)
                  (searched_values db cls s) = true))
  /\ (wildcard_free token = true ->
      forall cls rows s,
        match_ db cls token project = Return rows ->
        (In s rows
         <-> In s (samples db) /\ _project_id s = project_id_ project
             /\ existsb (icontains_nullable token) (searched_values db cls s)
                 = true)).
Proof.
  split; [| split].
  - intros cls. rewrite trace_resolve_token. apply in_flat_map.
    exists cls. split; [apply all_registered | apply trace_run_execute].
  - intros cls rows s H. apply rows_searched_values. assumption.
  - intros Hw cls rows s H.
    rewrite (rows_searched_values db cls token project rows s H).
    rewrite (existsb_pointwise _ (icontains_nullable token))
      by (intros v; apply LikeFacts.ilike_nullable_wrap; assumption).
    tauto.
Qed.

Lemma wrapped_token_search_witness :
  wildcard_free "alpha" = true
  /\ match_ Scenario.db SampleNameResolver "alpha" Scenario.P
     = Return [Scenario.n1; Scenario.n2]
  /\ (In Scenario.n1 [Scenario.n1; Scenario.n2]
      <-> In Scenario.n1 (samples Scenario.db)
          /\ _project_id Scenario.n1 = project_id_ Scenario.P
          /\ existsb (icontains_nullable "alpha")
               (searched_values Scenario.db SampleNameResolver Scenario.n1)
             = true).
Proof.
  split; [reflexivity |]. split; [reflexivity |].
  exact (proj2 (proj2 (wrapped_token_search Scenario.db Scenario.P "alpha"))
           eq_refl SampleNameResolver [Scenario.n1; Scenario.n2] Scenario.n1
           eq_refl).
Defined.

(** C9.  Comparing a wrapped sample with an object that has no [__key__]
    method raises [AttributeError]. *)
Theorem eq_raises_AttributeError (self : _HashableSample_) (o : PyObject) :
  has___key__ o = false ->
  __eq__ self o = Raise (AttributeError "__key__").
Proof. destruct o; simpl; intros H; [reflexivity .. | discriminate]. Qed.

Lemma eq_raises_AttributeError_witness :
  has___key__ PyNone = false
  /\ __eq__ (HashableSample.__init__ Scenario.n1) PyNone
     = Raise (AttributeError "__key__").
Proof.
  split; [reflexivity |].
  exact (eq_raises_AttributeError (HashableSample.__init__ Scenario.n1) PyNone
           eq_refl).
Defined.

(** C10.  On a project that resolves, a token sequence and the sequence
    without its repeated tokens return the same entities: the same identity
    keys, and the same samples wherever an identity key names one sample of
    the session. *)
Theorem resolve_ignores_duplicate_tokens (db : Session) (tokens : list string)
    (project_id : string) (project : Project) :
  value (get_project db project_id) = Return project ->
  exists r1 r2,
    value (SampleResolver.resolve db tokens project_id) = Return r1
    /\ value (SampleResolver.resolve db (nodup string_dec tokens) project_id)
       = Return r2
    /\ (forall k, In k (map identity_of r1) <-> In k (map identity_of r2))
    /\ ((forall s s', In s (samples db) -> In s' (samples db) ->
                      identity_of s = identity_of s' -> s = s') ->
        forall s, In s r1 <-> In s r2).
Proof.
  intros H.
  destruct (keys_resolve_query db tokens project_id project H) as [r1 [Hr1 Hk1]].
  destruct (keys_resolve_query db (nodup string_dec tokens) project_id project H)
    as [r2 [Hr2 Hk2]].
  exists r1, r2. split; [assumption |]. split; [assumption |].
  assert (Hkeys : forall k, In k (map identity_of r1) <-> In k (map identity_of r2)).
  { intros k. rewrite Hk1, Hk2. split.
    - intros [[t [Ht Hne]] Hall]. split.
      + exists t. split; [apply nodup_In; assumption | assumption].
      + intros t' Ht'. apply Hall. apply nodup_In in Ht'. assumption.
    - intros [[t [Ht Hne]] Hall]. split.
      + exists t. split; [apply nodup_In in Ht; assumption | assumption].
      + intros t' Ht'. apply Hall. apply nodup_In. assumption. }
  split; [exact Hkeys |].
  intros Hinj s.
  assert (Hsub : forall ra rb tokens_a tokens_b,
             value (SampleResolver.resolve db tokens_a project_id) = Return ra ->
             value (SampleResolver.resolve db tokens_b project_id) = Return rb ->
             (forall k, In k (map identity_of ra) -> In k (map identity_of rb)) ->
             In s ra -> In s rb).
  { intros ra rb ta tb Ha Hb Hab Hs.
    assert (Hk : In (identity_of s) (map identity_of rb))
      by (apply Hab; apply in_map; assumption).
    apply in_map_iff in Hk. destruct Hk as [s' [Hid Hs']].
    assert (s' = s).
    { apply Hinj; [| | assumption].
      - exact (resolve_query_in_samples db tb project_id project rb s' H Hb Hs').
      - exact (resolve_query_in_samples db ta project_id project ra s H Ha Hs). }
    subst s'. assumption. }
  split.
  - apply (Hsub r1 r2 tokens (nodup string_dec tokens) Hr1 Hr2).
    intros k. apply Hkeys.
  - apply (Hsub r2 r1 (nodup string_dec tokens) tokens Hr2 Hr1).
    intros k. apply Hkeys.
Qed.

Lemma resolve_ignores_duplicate_tokens_witness :
  value (get_project Scenario.db "P") = Return Scenario.P
  /\ exists r1 r2,
       value (SampleResolver.resolve Scenario.db ["alpha"; "beta"; "alpha"] "P")
       = Return r1
       /\ value (SampleResolver.resolve Scenario.db
                   (nodup string_dec ["alpha"; "beta"; "alpha"]) "P")
          = Return r2
       /\ (forall k, In k (map identity_of r1) <-> In k (map identity_of r2))
       /\ ((forall s s', In s (samples Scenario.db) -> In s' (samples Scenario.db) ->
                         identity_of s = identity_of s' -> s = s') ->
           forall s, In s r1 <-> In s r2).
Proof.
  split; [reflexivity |].
  exact (resolve_ignores_duplicate_tokens Scenario.db
           ["alpha"; "beta"; "alpha"] "P" Scenario.P eq_refl).
Defined.

(* ================================================================== *)
(** * Further properties of the resolver *)

Lemma rows_in_project (db : Session) (cls : ResolverType) (token : string)
    (project : Project) (rows : list Sample) (s : Sample) :
  match_ db cls token project = Return rows -> In s rows ->
  _project_id s = project_id_ project.
Proof.
  intros H Hin.
  apply (rows_searched_values db cls token project rows s H) in Hin. tauto.
Qed.

Lemma token_set_in_project (db : Session) (project : Project) (token : string)
    (h : _HashableSample_) :
  In h (token_set db project token) ->
  _project_id (sample h) = project_id_ project.
Proof.
  unfold token_set, reduce_init. intros H.
  apply PySetElements.in_fold_union in H.
  destruct H as [[] | [S [HS Hh]]].
  apply in_map_iff in HS. destruct HS as [cls [<- _]].
  unfold contribution in Hh.
  destruct (match_ db cls token project) as [rows | e] eqn:E; [| destruct Hh].
  unfold rows_set in Hh. apply PySetElements.in_fold_add in Hh.
  destruct Hh as [[] | [s [Hs ->]]].
  simpl. eapply rows_in_project; eassumption.
Qed.

(** X1.  Every entity a query returns is a sample of the session that
    belongs to the project the query was scoped to. *)
Theorem resolve_stays_in_project (db : Session) (tokens : list string)
    (project_id : string) (project : Project) (result : list Sample) :
  value (get_project db project_id) = Return project ->
  value (SampleResolver.resolve db tokens project_id) = Return result ->
  forall s, In s result ->
    In s (samples db) /\ _project_id s = project_id_ project.
Proof.
  intros H Hr s Hs. split.
  - exact (resolve_query_in_samples db tokens project_id project result s H Hr Hs).
  - rewrite (value_resolve_query db tokens project_id project H) in Hr.
    inversion Hr; subst; clear Hr.
    pose proof (in_candidate_results db project tokens) as Hin.
    destruct (candidate_results db project tokens) as [| x xs]; [destruct Hs |].
    apply in_map_iff in Hs. destruct Hs as [h [<- Hh]].
    apply PySetElements.in_fold_intersection in Hh.
    destruct Hh as [Hh | [y [Hy Hh]]].
    + destruct (proj1 (Hin x) (or_introl eq_refl)) as [t [_ [<- _]]].
      eapply token_set_in_project; eassumption.
    + destruct (proj1 (Hin y) (or_intror Hy)) as [t [_ [<- _]]].
      eapply token_set_in_project; eassumption.
Qed.

Lemma resolve_stays_in_project_witness :
  value (get_project Scenario.db "P") = Return Scenario.P
  /\ value (SampleResolver.resolve Scenario.db ["alpha"] "P")
     = Return [Scenario.n1; Scenario.n2]
  /\ forall s, In s [Scenario.n1; Scenario.n2] ->
       In s (samples Scenario.db) /\ _project_id s = project_id_ Scenario.P.
Proof.
  split; [reflexivity |]. split; [reflexivity |].
  exact (resolve_stays_in_project Scenario.db ["alpha"] "P" Scenario.P
           [Scenario.n1; Scenario.n2] eq_refl eq_refl).
Defined.

(** X2.  A query on a resolvable project returns a list in which no identity
    key occurs twice. *)
Theorem resolve_returns_each_identity_once (db : Session) (tokens : list string)
    (project_id : string) (project : Project) :
  value (get_project db project_id) = Return project ->
  exists result,
    value (SampleResolver.resolve db tokens project_id) = Return result
    /\ NoDup (map identity_of result).
Proof.
  intros H. eexists. split; [apply value_resolve_query; eassumption |].
  eapply NoDup_resolve_query; [eassumption |].
  apply value_resolve_query. assumption.
Qed.

Lemma resolve_returns_each_identity_once_witness :
  value (get_project Scenario.db "P") = Return Scenario.P
  /\ exists result,
       value (SampleResolver.resolve Scenario.db ["alpha"; "a"] "P") = Return result
       /\ NoDup (map identity_of result).
Proof.
  split; [reflexivity |].
  exact (resolve_returns_each_identity_once Scenario.db ["alpha"; "a"] "P"
           Scenario.P eq_refl).
Defined.

(** X3.  What a query returns, by identity: an entity is returned exactly
    when some token of the query has a hit and the entity is in the set of
    every token of the query that has a hit. *)
Theorem resolve_intersects_tokens_with_hits (db : Session) (tokens : list string)
    (project_id : string) (project : Project) (result : list Sample) :
  value (get_project db project_id) = Return project ->
  value (SampleResolver.resolve db tokens project_id) = Return result ->
  forall E : Sample,
    In (identity_of E) (map identity_of result)
    <-> (exists t S,
           In t tokens
           /\ value (SampleTokenResolver.resolve db
                       (SampleTokenResolver.__init__ project) t) = Return S
           /\ S <> [])
        /\ (forall t S,
              In t tokens ->
              value (SampleTokenResolver.resolve db
                       (SampleTokenResolver.__init__ project) t) = Return S ->
              S = [] \/ PySet.contains S (HashableSample.__init__ E) = true).
Proof.
  intros H Hr E.
  destruct (keys_resolve_query db tokens project_id project H) as [r [Hr' Hk]].
  rewrite Hr in Hr'. inversion Hr'; subst r; clear Hr'.
  rewrite Hk. split.
  - intros [[t [Ht Hne]] Hall]. split.
    + exists t, (token_set db project t).
      split; [assumption |]. split; [apply value_resolve_token | assumption].
    + intros t' S Ht' HS. rewrite value_resolve_token in HS.
      inversion HS; subst S; clear HS.
      destruct (Hall t' Ht') as [He | Hin]; [left; assumption | right].
      apply PySetFacts.contains_iff. exact Hin.
  - intros [[t [S [Ht [HS Hne]]]] Hall]. split.
    + exists t. rewrite value_resolve_token in HS.
      inversion HS; subst S. auto.
    + intros t' Ht'.
      destruct (Hall t' (token_set db project t') Ht'
                  (value_resolve_token db project t')) as [He | Hc];
        [left; assumption | right].
      apply PySetFacts.contains_iff in Hc. exact Hc.
Qed.

Lemma resolve_intersects_tokens_with_hits_witness :
  value (get_project Scenario.db "P") = Return Scenario.P
  /\ value (SampleResolver.resolve Scenario.db ["alpha"; "beta"] "P")
     = Return [Scenario.n2]
  /\ forall E : Sample,
       In (identity_of E) (map identity_of [Scenario.n2])
       <-> (exists t S,
              In t ["alpha"; "beta"]
              /\ value (SampleTokenResolver.resolve Scenario.db
                          (SampleTokenResolver.__init__ Scenario.P) t) = Return S
              /\ S <> [])
           /\ (forall t S,
                 In t ["alpha"; "beta"] ->
                 value (SampleTokenResolver.resolve Scenario.db
                          (SampleTokenResolver.__init__ Scenario.P) t) = Return S ->
                 S = [] \/ PySet.contains S (HashableSample.__init__ E) = true).
Proof.
  split; [reflexivity |]. split; [reflexivity |].
  exact (resolve_intersects_tokens_with_hits Scenario.db ["alpha"; "beta"] "P"
           Scenario.P [Scenario.n2] eq_refl eq_refl).
Defined.

(** X4.  The entities a query returns do not depend on the order of its
    tokens: two token sequences holding the same tokens return the same
    identity keys. *)
Theorem resolve_ignores_token_order (db : Session) (tokens tokens' : list string)
    (project_id : string) (project : Project) :
  value (get_project db project_id) = Return project ->
  (forall t, In t tokens <-> In t tokens') ->
  exists r r',
    value (SampleResolver.resolve db tokens project_id) = Return r
    /\ value (SampleResolver.resolve db tokens' project_id) = Return r'
    /\ forall k, In k (map identity_of r) <-> In k (map identity_of r').
Proof.
  intros H Hsame.
  destruct (keys_resolve_query db tokens project_id project H) as [r [Hr Hk]].
  destruct (keys_resolve_query db tokens' project_id project H) as [r' [Hr' Hk']].
  exists r, r'. split; [assumption |]. split; [assumption |].
  intros k. rewrite Hk, Hk'. split.
  - intros [[t [Ht Hne]] Hall]. split.
    + exists t. split; [apply Hsame; assumption | assumption].
    + intros t' Ht'. apply Hall. apply Hsame. assumption.
  - intros [[t [Ht Hne]] Hall]. split.
    + exists t. split; [apply Hsame; assumption | assumption].
    + intros t' Ht'. apply Hall. apply Hsame. assumption.
Qed.

Lemma resolve_ignores_token_order_witness :
  value (get_project Scenario.db "P") = Return Scenario.P
  /\ (forall t, In t ["alpha"; "beta"] <-> In t ["beta"; "alpha"])
  /\ exists r r',
       value (SampleResolver.resolve Scenario.db ["alpha"; "beta"] "P") = Return r
       /\ value (SampleResolver.resolve Scenario.db ["beta"; "alpha"] "P") = Return r'
       /\ forall k, In k (map identity_of r) <-> In k (map identity_of r').
Proof.
  assert (Hsame : forall t, In t ["alpha"; "beta"] <-> In t ["beta"; "alpha"])
    by (intros t; simpl; tauto).
  split; [reflexivity |]. split; [exact Hsame |].
  exact (resolve_ignores_token_order Scenario.db ["alpha"; "beta"] ["beta"; "alpha"]
           "P" Scenario.P eq_refl Hsame).
Defined.

(** X5.  The only exception a query raises is the one the project lookup
    raised: the failure of a matcher never reaches the caller, and [reduce]
    is never called on an empty sequence.  When it raises, no query has been
    sent to the session. *)
Theorem resolve_raises_only_from_project_lookup (db : Session)
    (tokens : list string) (project_id : string) (e : PyExc) :
  value (SampleResolver.resolve db tokens project_id) = Raise e ->
  value (get_project db project_id) = Raise e
  /\ trace (SampleResolver.resolve db tokens project_id)
     = trace (get_project db project_id).
Proof.
  intros Hr.
  destruct (value (get_project db project_id)) as [project | e0] eqn:H.
  - rewrite (value_resolve_query db tokens project_id project H) in Hr.
    discriminate Hr.
  - unfold SampleResolver.resolve in *.
    rewrite value_bind, H in Hr. inversion Hr; subst e0.
    split; [reflexivity |].
    rewrite trace_bind, H. apply app_nil_r.
Qed.

Lemma resolve_raises_only_from_project_lookup_witness :
  value (SampleResolver.resolve Scenario.db ["alpha"] "R")
  = Raise (ProjectNotFound "R")
  /\ value (get_project Scenario.db "R") = Raise (ProjectNotFound "R")
  /\ trace (SampleResolver.resolve Scenario.db ["alpha"] "R")
     = trace (get_project Scenario.db "R").
Proof.
  split; [reflexivity |].
  exact (resolve_raises_only_from_project_lookup Scenario.db ["alpha"] "R"
           (ProjectNotFound "R") eq_refl).
Defined.

(** X6.  A query none of whose tokens has a hit returns the empty list; it
    does not raise. *)
Theorem resolve_without_hits_is_empty (db : Session) (tokens : list string)
    (project_id : string) (project : Project) :
  value (get_project db project_id) = Return project ->
  (forall t, In t tokens ->
     value (SampleTokenResolver.resolve db
              (SampleTokenResolver.__init__ project) t) = Return PySet.empty) ->
  value (SampleResolver.resolve db tokens project_id) = Return [].
Proof.
  intros H Hall. rewrite (value_resolve_query db tokens project_id project H).
  pose proof (in_candidate_results db project tokens) as Hin.
  destruct (candidate_results db project tokens) as [| x xs]; [reflexivity |].
  exfalso.
  destruct (proj1 (Hin x) (or_introl eq_refl)) as [t [Ht [Heq Hne]]].
  specialize (Hall t Ht). rewrite value_resolve_token in Hall.
  inversion Hall. unfold PySet.empty in *. congruence.
Qed.

Lemma resolve_without_hits_is_empty_witness :
  value (get_project Scenario.db "P") = Return Scenario.P
  /\ (forall t, In t ["zzz"; "qqq"] ->
        value (SampleTokenResolver.resolve Scenario.db
                 (SampleTokenResolver.__init__ Scenario.P) t) = Return PySet.empty)
  /\ value (SampleResolver.resolve Scenario.db ["zzz"; "qqq"] "P") = Return [].
Proof.
  assert (Hall : forall t, In t ["zzz"; "qqq"] ->
            value (SampleTokenResolver.resolve Scenario.db
                     (SampleTokenResolver.__init__ Scenario.P) t)
            = Return PySet.empty)
    by (intros t [<- | [<- | []]]; reflexivity).
  split; [reflexivity |]. split; [exact Hall |].
  exact (resolve_without_hits_is_empty Scenario.db ["zzz"; "qqq"] "P" Scenario.P
           eq_refl Hall).
Defined.

(** X7.  A query of one token returns the samples of the set of that token,
    one for each element of the set. *)
Theorem resolve_single_token (db : Session) (token : string)
    (project_id : string) (project : Project) (S : PySet.t) :
  value (get_project db project_id) = Return project ->
  value (SampleTokenResolver.resolve db
           (SampleTokenResolver.__init__ project) token) = Return S ->
  value (SampleResolver.resolve db [token] project_id) = Return (map sample S).
Proof.
  intros H HS. rewrite value_resolve_token in HS. inversion HS; subst S; clear HS.
  rewrite (value_resolve_query db [token] project_id project H).
  unfold candidate_results. cbn [map filter].
  destruct (token_set db project token) as [| h S']; reflexivity.
Qed.

Lemma resolve_single_token_witness :
  value (get_project Scenario.db "P") = Return Scenario.P
  /\ value (SampleTokenResolver.resolve Scenario.db
              (SampleTokenResolver.__init__ Scenario.P) "alpha")
     = Return [HashableSample.__init__ Scenario.n1;
               HashableSample.__init__ Scenario.n2]
  /\ value (SampleResolver.resolve Scenario.db ["alpha"] "P")
     = Return (map sample [HashableSample.__init__ Scenario.n1;
                           HashableSample.__init__ Scenario.n2]).
Proof.
  split; [reflexivity |]. split; [reflexivity |].
  exact (resolve_single_token Scenario.db "alpha" "P" Scenario.P
           [HashableSample.__init__ Scenario.n1; HashableSample.__init__ Scenario.n2]
           eq_refl eq_refl).
Defined.

(** X8.  Where every token of a non-empty query has a hit, the query
    returns the intersection, by identity, of the sets of all its tokens. *)
Theorem resolve_is_intersection_when_all_tokens_hit (db : Session)
    (tokens : list string) (project_id : string) (project : Project)
    (result : list Sample) :
  value (get_project db project_id) = Return project ->
  tokens <> [] ->
  (forall t, In t tokens ->
     value (SampleTokenResolver.resolve db
              (SampleTokenResolver.__init__ project) t) <> Return PySet.empty) ->
  value (SampleResolver.resolve db tokens project_id) = Return result ->
  forall E : Sample,
    In (identity_of E) (map identity_of result)
    <-> forall t S,
          In t tokens ->
          value (SampleTokenResolver.resolve db
                   (SampleTokenResolver.__init__ project) t) = Return S ->
          PySet.contains S (HashableSample.__init__ E) = true.
Proof.
  intros H Hne Hall Hr E.
  assert (Hall' : forall t, In t tokens -> token_set db project t <> []).
  { intros t Ht He. apply (Hall t Ht). rewrite value_resolve_token, He.
    reflexivity. }
  destruct (resolve_query_intersection_when_all_match db tokens project_id project
              H Hne Hall') as [r [Hr' Hk]].
  rewrite Hr in Hr'. inversion Hr'; subst r; clear Hr'.
  rewrite Hk. split.
  - intros Hin t S Ht HS. rewrite value_resolve_token in HS.
    inversion HS; subst S. apply PySetFacts.contains_iff. apply Hin. assumption.
  - intros Hin t Ht.
    apply (PySetFacts.contains_iff (token_set db project t)
             (HashableSample.__init__ E)).
    apply (Hin t (token_set db project t) Ht (value_resolve_token db project t)).
Qed.

Lemma resolve_is_intersection_when_all_tokens_hit_witness :
  value (get_project Scenario.db "P") = Return Scenario.P
  /\ value (SampleResolver.resolve Scenario.db ["alpha"; "beta"] "P")
     = Return [Scenario.n2]
  /\ forall E : Sample,
       In (identity_of E) (map identity_of [Scenario.n2])
       <-> forall t S,
             In t ["alpha"; "beta"] ->
             value (SampleTokenResolver.resolve Scenario.db
                      (SampleTokenResolver.__init__ Scenario.P) t) = Return S ->
             PySet.contains S (HashableSample.__init__ E) = true.
Proof.
  assert (Hall : forall t, In t ["alpha"; "beta"] ->
            value (SampleTokenResolver.resolve Scenario.db
                     (SampleTokenResolver.__init__ Scenario.P) t)
            <> Return PySet.empty)
    by (intros t [<- | [<- | []]]; vm_compute; discriminate).
  assert (Hne : ["alpha"; "beta"] <> []) by discriminate.
  split; [reflexivity |]. split; [reflexivity |].
  exact (resolve_is_intersection_when_all_tokens_hit Scenario.db ["alpha"; "beta"]
           "P" Scenario.P [Scenario.n2] eq_refl Hne Hall eq_refl).
Defined.

(** X9.  Adding tokens to a query that has a hit never adds entities: if
    some token of [tokens] has a hit and every token of [tokens] is among
    [tokens'], every identity key returned for [tokens'] is returned for
    [tokens]. *)
Theorem resolve_more_tokens_fewer_entities (db : Session)
    (tokens tokens' : list string) (project_id : string) (project : Project)
    (r r' : list Sample) :
  value (get_project db project_id) = Return project ->
  incl tokens tokens' ->
  (exists t S,
     In t tokens
     /\ value (SampleTokenResolver.resolve db
                 (SampleTokenResolver.__init__ project) t) = Return S
     /\ S <> []) ->
  value (SampleResolver.resolve db tokens project_id) = Return r ->
  value (SampleResolver.resolve db tokens' project_id) = Return r' ->
  forall k, In k (map identity_of r') -> In k (map identity_of r).
Proof.
  intros H Hincl [t [S [Ht [HS Hne]]]] Hr Hr' k.
  destruct (keys_resolve_query db tokens project_id project H) as [x [Hx Hk]].
  rewrite Hr in Hx. inversion Hx; subst x; clear Hx.
  destruct (keys_resolve_query db tokens' project_id project H) as [x' [Hx' Hk']].
  rewrite Hr' in Hx'. inversion Hx'; subst x'; clear Hx'.
  rewrite Hk, Hk'. intros [_ Hall]. split.
  - exists t. rewrite value_resolve_token in HS. inversion HS; subst S. auto.
  - intros t' Ht'. apply Hall. apply Hincl. assumption.
Qed.

Lemma resolve_more_tokens_fewer_entities_witness :
  value (get_project Scenario.db "P") = Return Scenario.P
  /\ incl ["alpha"] ["alpha"; "beta"]
  /\ value (SampleResolver.resolve Scenario.db ["alpha"] "P")
     = Return [Scenario.n1; Scenario.n2]
  /\ value (SampleResolver.resolve Scenario.db ["alpha"; "beta"] "P")
     = Return [Scenario.n2]
  /\ forall k, In k (map identity_of [Scenario.n2]) ->
               In k (map identity_of [Scenario.n1; Scenario.n2]).
Proof.
  assert (Hincl : incl ["alpha"] ["alpha"; "beta"])
    by (intros t [<- | []]; simpl; auto).
  assert (Hhit : exists t S,
            In t ["alpha"]
            /\ value (SampleTokenResolver.resolve Scenario.db
                        (SampleTokenResolver.__init__ Scenario.P) t) = Return S
            /\ S <> []).
  { exists "alpha",
      [HashableSample.__init__ Scenario.n1; HashableSample.__init__ Scenario.n2].
    split; [simpl; auto |]. split; [reflexivity | discriminate]. }
  split; [reflexivity |]. split; [exact Hincl |].
  split; [reflexivity |]. split; [reflexivity |].
  exact (resolve_more_tokens_fewer_entities Scenario.db ["alpha"] ["alpha"; "beta"]
           "P" Scenario.P [Scenario.n1; Scenario.n2] [Scenario.n2]
           eq_refl Hincl Hhit eq_refl eq_refl).
Defined.

(* ================================================================== *)
(** * What is sent to the session and to the logger *)

Lemma trace_run (db : Session) (cls : ResolverType) (token : string)
    (project : Project) :
  trace (_Resolver_.run db (SampleTokenResolver.make_resolver cls token project))
  = run_events db project token cls.
Proof.
  unfold run_events, match_, _Resolver_.run, _Resolver_.resolve.
  rewrite trace_try_except, trace_bind, value_bind.
  cbn [_Resolver_.cls _Resolver_.token _Resolver_.project _Resolver_.results
       _Resolver_.set_results SampleTokenResolver.make_resolver].
  destruct cls;
    unfold _SampleNameResolver_.resolve, _StageMethodResolver_.resolve,
      _StageAnnotationResolver_.resolve;
    rewrite ?trace_bind, ?value_bind, ?trace_all, ?value_all;
    destruct (execute_error db _ _ _); reflexivity.
Qed.

Lemma trace_resolve_token_events (db : Session) (project : Project)
    (token : string) :
  trace (SampleTokenResolver.resolve db (SampleTokenResolver.__init__ project) token)
  = flat_map (run_events db project token) _RESOLVER_TYPES_.
Proof.
  rewrite trace_resolve_token. apply flat_map_ext. intros cls. apply trace_run.
Qed.

Lemma trace_resolve_query (db : Session) (tokens : list string)
    (project_id : string) (project : Project) :
  value (get_project db project_id) = Return project ->
  trace (SampleResolver.resolve db tokens project_id)
  = GetProject project_id
    :: flat_map (fun t => flat_map (run_events db project t) _RESOLVER_TYPES_)
         tokens.
Proof.
  intros H. unfold SampleResolver.resolve.
  rewrite trace_bind, (get_project_found db project_id project H).
  cbn [value trace fst snd app]. f_equal.
  rewrite trace_bind.
  rewrite (trace_for_each _ (token_set db project))
    by (intros; apply value_resolve_token).
  rewrite (value_for_each _ (token_set db project))
    by (intros; apply value_resolve_token).
  fold (candidate_results db project tokens).
  replace (trace _) with (@nil Event)
    by (destruct (candidate_results db project tokens); reflexivity).
  rewrite app_nil_r. apply flat_map_ext. intros t.
  apply trace_resolve_token_events.
Qed.

Lemma filter_is_Execute_run_events (db : Session) (project : Project)
    (token : string) (cls : ResolverType) :
  filter is_Execute (run_events db project token cls)
  = [Execute cls (SampleTokenResolver.wrap token) (project_id_ project)].
Proof.
  unfold run_events. destruct (match_ db cls token project); reflexivity.
Qed.

Lemma filter_flat_map {A B : Type} (p : B -> bool) (f : A -> list B) (l : list A) :
  filter p (flat_map f l) = flat_map (fun x => filter p (f x)) l.
Proof.
  induction l as [| x l IH]; simpl; [reflexivity |].
  rewrite filter_app, IH. reflexivity.
Qed.

(** X10.  Resolving a token runs every registered matcher once, in the
    order of [_RESOLVER_TYPES_], each with the pattern ["%" ++ token ++ "%"]
    and the id of the project; a matcher whose query raises is followed by
    one logged error, and the matchers after it still run. *)
Theorem resolve_token_runs_every_matcher (db : Session) (project : Project)
    (token : string) :
  trace (SampleTokenResolver.resolve db (SampleTokenResolver.__init__ project) token)
  = flat_map
      (fun cls =>
         Execute cls ("%" ++ token ++ "%")%string (project_id_ project)
         :: match match_ db cls token project with
            | Return _ => []
            | Raise e => [LogError cls e]
            end)
      [SampleNameResolver; StageMethodResolver; StageAnnotationResolver].
Proof. apply trace_resolve_token_events. Qed.

(** X11.  On a project that resolves, a query looks the project up once and
    then resolves its tokens in order, every one of them: a token without
    hits, or a matcher that raises, stops nothing. *)
Theorem resolve_resolves_every_token (db : Session) (tokens : list string)
    (project_id : string) (project : Project) :
  value (get_project db project_id) = Return project ->
  trace (SampleResolver.resolve db tokens project_id)
  = GetProject project_id
    :: flat_map
         (fun t => trace (SampleTokenResolver.resolve db
                            (SampleTokenResolver.__init__ project) t))
         tokens.
Proof.
  intros H. rewrite (trace_resolve_query db tokens project_id project H).
  f_equal. apply flat_map_ext. intros t. symmetry.
  apply trace_resolve_token_events.
Qed.

Lemma resolve_resolves_every_token_witness :
  value (get_project Scenario.db "P") = Return Scenario.P
  /\ trace (SampleResolver.resolve Scenario.db ["zzz"; "alpha"] "P")
     = GetProject "P"
       :: flat_map
            (fun t => trace (SampleTokenResolver.resolve Scenario.db
                               (SampleTokenResolver.__init__ Scenario.P) t))
            ["zzz"; "alpha"].
Proof.
  split; [reflexivity |].
  exact (resolve_resolves_every_token Scenario.db ["zzz"; "alpha"] "P" Scenario.P
           eq_refl).
Defined.

(** X12.  The queries a query sends to the session are fixed by its tokens
    alone: three for each token, in the order of the tokens and of
    [_RESOLVER_TYPES_], whatever the session answers. *)
Theorem resolve_sends_three_queries_per_token (db : Session)
    (tokens : list string) (project_id : string) (project : Project) :
  value (get_project db project_id) = Return project ->
  filter is_Execute (trace (SampleResolver.resolve db tokens project_id))
  = flat_map
      (fun t =>
         map (fun cls => Execute cls (SampleTokenResolver.wrap t)
                           (project_id_ project))
           _RESOLVER_TYPES_)
      tokens.
Proof.
  intros H. rewrite (trace_resolve_query db tokens project_id project H).
  cbn [filter is_Execute]. rewrite filter_flat_map.
  apply flat_map_ext. intros t. rewrite filter_flat_map.
  unfold _RESOLVER_TYPES_. cbn [flat_map map].
  rewrite !filter_is_Execute_run_events. reflexivity.
Qed.

Lemma resolve_sends_three_queries_per_token_witness :
  value (get_project Scenario.db "P") = Return Scenario.P
  /\ filter is_Execute
       (trace (SampleResolver.resolve Scenario.db ["zzz"; "alpha"] "P"))
     = [Execute SampleNameResolver "%zzz%" 1;
        Execute StageMethodResolver "%zzz%" 1;
        Execute StageAnnotationResolver "%zzz%" 1;
        Execute SampleNameResolver "%alpha%" 1;
        Execute StageMethodResolver "%alpha%" 1;
        Execute StageAnnotationResolver "%alpha%" 1].
Proof.
  split; [reflexivity |].
  exact (resolve_sends_three_queries_per_token Scenario.db ["zzz"; "alpha"] "P"
           Scenario.P eq_refl).
Defined.

(** X13.  [run] never raises, whatever the resolver held before: it leaves
    the class, the token and the project of the resolver as they were, and
    replaces its results by a set without repeated identity keys, holding
    the identity keys of the rows [resolve] returned, and none if [resolve]
    raised. *)
Theorem run_never_raises (db : Session) (r : _Resolver_.t) :
  exists r',
    value (_Resolver_.run db r) = Return r'
    /\ _Resolver_.cls r' = _Resolver_.cls r
    /\ _Resolver_.token r' = _Resolver_.token r
    /\ _Resolver_.project r' = _Resolver_.project r
    /\ NoDup (keys (_Resolver_.results r'))
    /\ forall k,
         In k (keys (_Resolver_.results r'))
         <-> exists rows,
               value (_Resolver_.resolve r db (_Resolver_.token r)
                        (project_id_ (_Resolver_.project r))) = Return rows
               /\ In k (map identity_of rows).
Proof.
  destruct r as [c p t s].
  unfold _Resolver_.run. rewrite value_try_except, value_bind.
  unfold _Resolver_.set_results, _Resolver_.resolve.
  cbn [_Resolver_.cls _Resolver_.token _Resolver_.project _Resolver_.results].
  match goal with
  | |- context [value ?m] => destruct (value m) as [rows | e]
  end.
  - eexists. split; [reflexivity |].
    cbn [_Resolver_.cls _Resolver_.token _Resolver_.project _Resolver_.results].
    repeat (split; [reflexivity |]). split.
    + apply (NoDup_rows_set rows).
    + intros k. rewrite (keys_rows_set rows k). split.
      * intros Hk. exists rows. auto.
      * intros [rows' [Heq Hk]]. inversion Heq; subst rows'. assumption.
  - eexists. split; [reflexivity |].
    cbn [_Resolver_.cls _Resolver_.token _Resolver_.project _Resolver_.results].
    repeat (split; [reflexivity |]). split.
    + constructor.
    + intros k. split; [intros [] | intros [rows [Heq _]]; discriminate Heq].
Qed.

(* ================================================================== *)
(** * Tokens and patterns *)

Lemma ilike_same_lower (v t t' : string) :
  SQL.lower t = SQL.lower t' ->
  SQL.ilike v (SampleTokenResolver.wrap t)
  = SQL.ilike v (SampleTokenResolver.wrap t').
Proof.
  intros H. unfold SQL.ilike. rewrite !LikeFacts.lower_wrap, H. reflexivity.
Qed.

Lemma ilike_nullable_same_lower (v : option string) (t t' : string) :
  SQL.lower t = SQL.lower t' ->
  SQL.ilike_nullable v (SampleTokenResolver.wrap t)
  = SQL.ilike_nullable v (SampleTokenResolver.wrap t').
Proof.
  intros H. destruct v as [v |]; [apply ilike_same_lower; assumption | reflexivity].
Qed.

Lemma ilike_wrap_empty (v : string) :
  SQL.ilike v (SampleTokenResolver.wrap "") = true.
Proof.
  unfold SQL.ilike.
  change (SQL.lower (SampleTokenResolver.wrap "")) with "%%".
  rewrite LikeFacts.like_any_run, LikeFacts.like_percent. reflexivity.
Qed.

Lemma match__SampleNameResolver (db : Session) (token : string)
    (project : Project) :
  execute_error db SampleNameResolver (SampleTokenResolver.wrap token)
    (project_id_ project) = None ->
  exists rows, match_ db SampleNameResolver token project = Return rows.
Proof.
  intros H. unfold match_, _Resolver_.resolve.
  cbn [_Resolver_.cls _Resolver_.token _Resolver_.project
       SampleTokenResolver.make_resolver].
  unfold _SampleNameResolver_.resolve. rewrite value_all, H.
  eexists. reflexivity.
Qed.

Lemma candidate_results_app (db : Session) (project : Project)
    (tokens1 tokens2 : list string) :
  candidate_results db project (tokens1 ++ tokens2)
  = candidate_results db project tokens1 ++ candidate_results db project tokens2.
Proof. unfold candidate_results. rewrite map_app, filter_app. reflexivity. Qed.

(** X14.  Each matcher ignores the case of the token: for two tokens that
    differ only in the case of their ASCII letters, a matcher that answers
    both returns the same rows, in the same order. *)
Theorem match_ignores_token_case (db : Session) (cls : ResolverType)
    (t t' : string) (project : Project) (rows rows' : list Sample) :
  SQL.lower t = SQL.lower t' ->
  match_ db cls t project = Return rows ->
  match_ db cls t' project = Return rows' ->
  rows = rows'.
Proof.
  intros Hl. unfold match_, _Resolver_.resolve.
  cbn [_Resolver_.cls _Resolver_.token _Resolver_.project
       SampleTokenResolver.make_resolver].
  destruct cls;
    unfold _SampleNameResolver_.resolve, _StageMethodResolver_.resolve,
      _StageAnnotationResolver_.resolve;
    rewrite ?value_bind, !value_all;
    destruct (execute_error db _ (SampleTokenResolver.wrap t) _);
    try discriminate;
    destruct (execute_error db _ (SampleTokenResolver.wrap t') _);
    try discriminate;
    cbn [value ret fst]; intros H H'; inversion H; inversion H'; subst.
  - apply filter_ext. intros s. apply ilike_same_lower. assumption.
  - f_equal. apply filter_ext. intros row. apply ilike_same_lower. assumption.
  - f_equal. apply filter_ext. intros row.
    apply ilike_nullable_same_lower. assumption.
Qed.

Lemma match_ignores_token_case_witness :
  SQL.lower "ALPHA" = SQL.lower "alpha"
  /\ match_ Scenario.db SampleNameResolver "ALPHA" Scenario.P
     = Return [Scenario.n1; Scenario.n2]
  /\ match_ Scenario.db SampleNameResolver "alpha" Scenario.P
     = Return [Scenario.n1; Scenario.n2]
  /\ [Scenario.n1; Scenario.n2] = [Scenario.n1; Scenario.n2].
Proof.
  split; [reflexivity |]. split; [reflexivity |]. split; [reflexivity |].
  exact (match_ignores_token_case Scenario.db SampleNameResolver "ALPHA" "alpha"
           Scenario.P [Scenario.n1; Scenario.n2] [Scenario.n1; Scenario.n2]
           eq_refl eq_refl eq_refl).
Defined.

(** X15.  The empty token matches every name: if the query of the name
    matcher does not raise, the query [[""]] returns the identity keys of
    all the samples of the project, and only those. *)
Theorem empty_token_returns_whole_project (db : Session) (project_id : string)
    (project : Project) (result : list Sample) :
  value (get_project db project_id) = Return project ->
  execute_error db SampleNameResolver "%%" (project_id_ project) = None ->
  value (SampleResolver.resolve db [""] project_id) = Return result ->
  forall k,
    In k (map identity_of result)
    <-> exists s, In s (samples db) /\ _project_id s = project_id_ project
                  /\ identity_of s = k.
Proof.
  intros H Hnf Hr k.
  destruct (keys_resolve_query db [""] project_id project H) as [r [Hr' Hk]].
  rewrite Hr in Hr'. inversion Hr'; subst r; clear Hr'.
  rewrite Hk. split.
  - intros [[t [Ht Hne]] Hall].
    destruct (Hall "" (or_introl eq_refl)) as [He | Hin].
    + destruct Ht as [<- | []]. contradiction.
    + apply keys_token_set in Hin. destruct Hin as [cls [rows [_ [Hm Hin]]]].
      apply in_map_iff in Hin. destruct Hin as [s [Hid Hs]].
      exists s. split; [| split; [| assumption]].
      * exact (rows_in_samples db cls "" project rows s Hm Hs).
      * exact (rows_in_project db cls "" project rows s Hm Hs).
  - intros [s [Hs [Hp Hid]]].
    destruct (match__SampleNameResolver db "" project Hnf) as [rows Hrows].
    assert (Hin : In k (keys (token_set db project ""))).
    { apply keys_token_set. exists SampleNameResolver, rows.
      split; [apply all_registered |]. split; [assumption |].
      subst k. apply in_map.
      apply (rows_SampleNameResolver db "" project rows s Hrows).
      split; [assumption |]. split; [assumption |]. apply ilike_wrap_empty. }
    split.
    + exists "". split; [left; reflexivity |].
      intros He. rewrite He in Hin. destruct Hin.
    + intros t [<- | []]. right. assumption.
Qed.

Lemma empty_token_returns_whole_project_witness :
  value (get_project Scenario.db "P") = Return Scenario.P
  /\ execute_error Scenario.db SampleNameResolver "%%" (project_id_ Scenario.P)
     = None
  /\ value (SampleResolver.resolve Scenario.db [""] "P")
     = Return [Scenario.n1; Scenario.n2]
  /\ forall k,
       In k (map identity_of [Scenario.n1; Scenario.n2])
       <-> exists s, In s (samples Scenario.db)
                     /\ _project_id s = project_id_ Scenario.P
                     /\ identity_of s = k.
Proof.
  split; [reflexivity |]. split; [reflexivity |]. split; [reflexivity |].
  exact (empty_token_returns_whole_project Scenario.db "P" Scenario.P
           [Scenario.n1; Scenario.n2] eq_refl eq_refl eq_refl).
Defined.

(** X16.  Where the stages have distinct ids, the join of the method
    matcher with the aliased stages changes nothing: its rows are the
    samples of the project with a stage the name of whose method is LIKE the
    pattern. *)
Theorem method_matcher_searches_methods_of_stages (db : Session)
    (token : string) (project : Project) (rows : list Sample) :
  (forall st st1, In st (sample_stages db) -> In st1 (sample_stages db) ->
                  stage_id st = stage_id st1 -> st = st1) ->
  match_ db StageMethodResolver token project = Return rows ->
  forall s,
    In s rows
    <-> In s (samples db) /\ _project_id s = project_id_ project
        /\ exists st m,
             In st (sample_stages db) /\ stage_sample_id st = id s
             /\ In m (methods db) /\ method_id m = stage_method_id st
             /\ SQL.ilike (method_name m) (SampleTokenResolver.wrap token) = true.
Proof.
  intros Huniq H s.
  rewrite (rows_StageMethodResolver db token project rows s H). split.
  - intros [Hs [Hp [st [st1 [m [Hst [Hid [Hst1 [Hsid [Hm [Hmid Hl]]]]]]]]]]].
    split; [assumption |]. split; [assumption |].
    assert (st = st1) by (apply Huniq; assumption). subst st1.
    exists st, m. repeat split; auto.
  - intros [Hs [Hp [st [m [Hst [Hid [Hm [Hmid Hl]]]]]]]].
    split; [assumption |]. split; [assumption |].
    exists st, st, m. repeat split; auto.
Qed.

Lemma method_matcher_searches_methods_of_stages_witness :
  (forall st st1, In st (sample_stages Scenario.db) ->
                  In st1 (sample_stages Scenario.db) ->
                  stage_id st = stage_id st1 -> st = st1)
  /\ match_ Scenario.db StageMethodResolver "ray" Scenario.P
     = Return [Scenario.n1]
  /\ forall s,
       In s [Scenario.n1]
       <-> In s (samples Scenario.db) /\ _project_id s = project_id_ Scenario.P
           /\ exists st m,
                In st (sample_stages Scenario.db) /\ stage_sample_id st = id s
                /\ In m (methods Scenario.db)
                /\ method_id m = stage_method_id st
                /\ SQL.ilike (method_name m) (SampleTokenResolver.wrap "ray")
                   = true.
Proof.
  assert (Huniq : forall st st1, In st (sample_stages Scenario.db) ->
                    In st1 (sample_stages Scenario.db) ->
                    stage_id st = stage_id st1 -> st = st1).
  { intros st st1 [<- | [<- | []]] [<- | [<- | []]] Heq;
      (reflexivity || discriminate Heq). }
  split; [exact Huniq |]. split; [reflexivity |].
  exact (method_matcher_searches_methods_of_stages Scenario.db "ray" Scenario.P
           [Scenario.n1] Huniq eq_refl).
Defined.

(** X17.  A token without hits is ignored: wherever it stands in the
    query, the query returns what it returns without it. *)
Theorem resolve_ignores_token_without_hits (db : Session)
    (tokens1 tokens2 : list string) (t : string) (project_id : string)
    (project : Project) :
  value (get_project db project_id) = Return project ->
  value (SampleTokenResolver.resolve db
           (SampleTokenResolver.__init__ project) t) = Return PySet.empty ->
  value (SampleResolver.resolve db (tokens1 ++ t :: tokens2) project_id)
  = value (SampleResolver.resolve db (tokens1 ++ tokens2) project_id).
Proof.
  intros H Ht. rewrite value_resolve_token in Ht. inversion Ht as [He]; clear Ht.
  rewrite (value_resolve_query db (tokens1 ++ t :: tokens2) project_id project H).
  rewrite (value_resolve_query db (tokens1 ++ tokens2) project_id project H).
  rewrite !candidate_results_app.
  replace (candidate_results db project (t :: tokens2))
    with (candidate_results db project tokens2); [reflexivity |].
  unfold candidate_results. cbn [map filter]. rewrite He. reflexivity.
Qed.

Lemma resolve_ignores_token_without_hits_witness :
  value (get_project Scenario.db "P") = Return Scenario.P
  /\ value (SampleTokenResolver.resolve Scenario.db
              (SampleTokenResolver.__init__ Scenario.P) "zzz")
     = Return PySet.empty
  /\ value (SampleResolver.resolve Scenario.db (["alpha"] ++ "zzz" :: ["beta"]) "P")
     = value (SampleResolver.resolve Scenario.db (["alpha"] ++ ["beta"]) "P").
Proof.
  split; [reflexivity |]. split; [reflexivity |].
  exact (resolve_ignores_token_without_hits Scenario.db ["alpha"] ["beta"] "zzz"
           "P" Scenario.P eq_refl eq_refl).
Defined.
